(** * Enthalpy calculator: the steam-table estimator and the air-variant
      front end, embedded from [script.js] and its sibling script.

    The two scripts compute with JavaScript numbers.  The code is embedded
    once, over an interface of the number operations it uses, and run at two
    instances: IEEE 754 binary64 (what the scripts really compute with) and
    exact rationals (the idealisation the interpolation formula is stated
    in). *)

From Stdlib Require Import List Bool Arith ZArith QArith Qabs Lia Lqa Floats.
From Stdlib Require String.
Import String.StringSyntax.
Import ListNotations.

Close Scope Q_scope.

(** ** JavaScript numbers *)

(** The operations of a JavaScript number that the scripts use.
    [lit q] is the number a decimal literal of value [q] denotes;
    [eqb] is [===] on numbers; [a > b] is [ltb b a]. *)
Class JSNumber (num : Type) : Type := {
  lit : Q -> num;
  add : num -> num -> num;
  sub : num -> num -> num;
  mul : num -> num -> num;
  div : num -> num -> num;
  abs : num -> num;
  ltb : num -> num -> bool;
  leb : num -> num -> bool;
  eqb : num -> num -> bool
}.

Definition gtb {num} `{JSNumber num} (a b : num) : bool := ltb b a.

(** [isNaN(x)] on a number: NaN is the one number that is not [===] itself. *)
Definition isNaN {num} `{JSNumber num} (x : num) : bool := negb (eqb x x).

(** The number of a natural count ([array.length]). *)
Definition of_nat {num} `{JSNumber num} (n : nat) : num :=
  lit (inject_Z (Z.of_nat n)).

(** *** binary64 *)

Module F64.

Definition of_Z (z : Z) : float :=
  match z with
  | Z0 => PrimFloat.zero
  | Zpos _ => PrimFloat.of_uint63 (Uint63.of_Z z)
  | Zneg p => PrimFloat.opp (PrimFloat.of_uint63 (Uint63.of_Z (Zpos p)))
  end.

(** A decimal literal denotes the double nearest to its value.  The
    literals of the scripts have a numerator and a power of ten below
    2^53, both doubles, and the division of doubles is correctly rounded:
    their quotient is that nearest double. *)
Definition of_decimal (q : Q) : float :=
  PrimFloat.div (of_Z (Qnum q)) (of_Z (Zpos (Qden q))).

#[global] Instance number : JSNumber float := {
  lit := of_decimal;
  add := PrimFloat.add;
  sub := PrimFloat.sub;
  mul := PrimFloat.mul;
  div := PrimFloat.div;
  abs := PrimFloat.abs;
  ltb := PrimFloat.ltb;
  leb := PrimFloat.leb;
  eqb := PrimFloat.eqb
}.

End F64.

(** *** exact rationals *)

Module Exact.

Definition Qlt_bool (a b : Q) : bool := negb (Qle_bool b a).

#[global] Instance number : JSNumber Q := {
  lit := fun q => q;
  add := Qplus;
  sub := Qminus;
  mul := Qmult;
  div := Qdiv;
  abs := Qabs;
  ltb := Qlt_bool;
  leb := Qle_bool;
  eqb := Qeq_bool
}.

End Exact.

(** *** The order of the numbers

    What the proofs use of [<], [<=] and [===]: a total preorder on the
    numbers that are not NaN ([eqb a a = true]), and no comparison with
    NaN holds. *)
Class JSOrder (num : Type) `{JSNumber num} : Prop := {
  ltb_leb : forall a b, ltb a b = true -> leb a b = true;
  ltb_not_leb : forall a b, ltb a b = true -> leb b a = false;
  leb_ltb_eqb : forall a b, leb a b = true -> ltb a b = false -> eqb a b = true;
  leb_total : forall a b,
    eqb a a = true -> eqb b b = true -> leb a b = false -> ltb b a = true;
  leb_defined : forall a b, leb a b = true -> eqb a a = true /\ eqb b b = true;
  leb_refl : forall a, eqb a a = true -> leb a a = true;
  leb_trans : forall a b c, leb a b = true -> leb b c = true -> leb a c = true;
  ltb_leb_trans : forall a b c,
    ltb a b = true -> leb b c = true -> ltb a c = true
}.
Arguments JSOrder num {_}.

(** ** The steam-table variant ([script.js]) *)

Module Steam.

Section Estimator.

Context {num : Type} `{JSNumber num}.

(** One entry of [steamTableData]: two index-aligned arrays. *)
Record curve : Type := {
  temperatures : list num;
  enthalpies : list num
}.

(** The table object, as the list of its (key, value) properties in the
    order [Object.keys] enumerates them (integer keys, ascending). *)
Definition table : Type := list (num * curve).

Definition steamTableData : table :=
  [ (lit 10%Q,
     {| temperatures := map lit [200; 250; 300; 350; 400; 450; 500; 550; 600]%Q;
        enthalpies := map lit [2827.4; 2957.2; 3051.2; 3157.7; 3264.5;
                               3373.7; 3486.8; 3603.4; 3723.4]%Q |});
    (lit 20%Q,
     {| temperatures := map lit [212; 250; 300; 350; 400; 450; 500; 550; 600]%Q;
        enthalpies := map lit [2799.5; 2902.5; 3023.5; 3137.0; 3248.4;
                               3360.8; 3475.2; 3592.2; 3712.0]%Q |});
    (lit 30%Q,
     {| temperatures := map lit [234; 250; 300; 350; 400; 450; 500; 550; 600]%Q;
        enthalpies := map lit [2803.4; 2855.8; 2993.5; 3115.3; 3231.6;
                               3346.8; 3462.8; 3580.4; 3700.1]%Q |});
    (lit 50%Q,
     {| temperatures := map lit [264; 300; 350; 400; 450; 500; 550; 600]%Q;
        enthalpies := map lit [2794.3; 2924.5; 3064.2; 3196.7; 3317.2;
                               3436.7; 3556.8; 3678.2]%Q |});
    (lit 90%Q,
     {| temperatures := map lit [303; 350; 400; 450; 500; 550; 600]%Q;
        enthalpies := map lit [2724.7; 2957.2; 3138.3; 3279.6; 3410.3;
                               3486.0; 3612.8]%Q |}) ].

(** [linearInterpolate(x, x1, x2, y1, y2)] *)
Definition linearInterpolate (x x1 x2 y1 y2 : num) : num :=
  if eqb x1 x2 then y1
  else add y1 (mul (div (sub x x1) (sub x2 x1)) (sub y2 y1)).

(** One turn of the [for ... of] loop of [findClosestPressure], on the
    pair ([closest], [minDiff]). *)
Definition closerStep (targetPressure : num) (st : num * num)
    (pressure : num) : num * num :=
  let diff := abs (sub targetPressure pressure) in
  if ltb diff (snd st) then (pressure, diff) else st.

(** [findClosestPressure], over the keys [levels] of the table.  With no
    key at all [availablePressures[0]] is [undefined]: [None]. *)
Definition closestOf (levels : list num) (targetPressure : num)
    : option num :=
  match levels with
  | [] => None
  | first :: _ =>
      let closest := first in
      let minDiff := abs (sub targetPressure closest) in
      Some (fst (fold_left (closerStep targetPressure) levels
                   (closest, minDiff)))
  end.

Definition findClosestPressure (tbl : table) (targetPressure : num)
    : option num :=
  closestOf (map fst tbl) targetPressure.

(** [steamTableData[key]]: the property whose key is the number. *)
Fixpoint lookup (tbl : table) (key : num) : option curve :=
  match tbl with
  | [] => None
  | (k, c) :: rest => if eqb k key then Some c else lookup rest key
  end.

Inductive method_tag : Type := exact | interpolated.

Record bracket : Type := { T1 : num; T2 : num; h1 : num; h2 : num }.

Record estimate : Type := {
  enthalpy : num;
  pressureUsed : num;
  method : method_tag;
  interpolationData : option bracket
}.

(** The values the message of the thrown [Error] is built from:
    `Temperature ${temperature}°C is outside the range for
    ${closestPressure} kg/cm²G (${temps[0]}°C - ${temps[last]}°C)`. *)
Record rangeError : Type := {
  requested : num;
  level : num;
  lower : num;
  upper : num
}.

(** How a call ends.  [ReadsUndefined] stands for a run that reads a
    missing property or array element ([undefined]); the model follows
    the code no further than that read. *)
Inductive completion (A : Type) : Type :=
| Returns (a : A)
| Throws (e : rangeError)
| ReadsUndefined.
Arguments Returns {A} a.
Arguments Throws {A} e.
Arguments ReadsUndefined {A}.

(** The [while] loop of [calculateEnthalpy]:
    [while (i < temps.length - 1 && temps[i + 1] <= temperature) i++]. *)
Fixpoint bracketLoop (fuel : nat) (temps : list num) (temperature : num)
    (i : nat) : nat :=
  match fuel with
  | O => i
  | S fuel' =>
      if (i <? length temps - 1)%nat
         && match nth_error temps (i + 1) with
            | Some t => leb t temperature
            | None => false
            end
      then bracketLoop fuel' temps temperature (i + 1)
      else i
  end.

(** Each turn increments [i], so [temps.length] turns are enough. *)
Definition bracketIndex (temps : list num) (temperature : num) : nat :=
  bracketLoop (length temps) temps temperature 0.

(** The body of [calculateEnthalpy] once [closestPressure] and [data] are
    bound (from the range check on). *)
Definition estimateOnCurve (closestPressure : num) (data : curve)
    (temperature : num) : completion estimate :=
  let temps := temperatures data in
  let enths := enthalpies data in
  match nth_error temps 0, nth_error temps (length temps - 1) with
  | Some tmin, Some tmax =>
      if ltb temperature tmin || gtb temperature tmax then
        Throws {| requested := temperature; level := closestPressure;
                  lower := tmin; upper := tmax |}
      else
        let i := bracketIndex temps temperature in
        match nth_error temps i, nth_error enths i with
        | Some ti, Some hi =>
            if eqb ti temperature then
              Returns {| enthalpy := hi; pressureUsed := closestPressure;
                         method := exact; interpolationData := None |}
            else
              match nth_error temps (i + 1), nth_error enths (i + 1) with
              | Some ti1, Some hi1 =>
                  Returns
                    {| enthalpy := linearInterpolate temperature ti ti1 hi hi1;
                       pressureUsed := closestPressure;
                       method := interpolated;
                       interpolationData :=
                         Some {| T1 := ti; T2 := ti1; h1 := hi; h2 := hi1 |} |}
              | _, _ => ReadsUndefined
              end
        | _, _ => ReadsUndefined
        end
  | _, _ => ReadsUndefined
  end.

Definition calculateEnthalpyOn (tbl : table) (temperature pressure : num)
    : completion estimate :=
  match findClosestPressure tbl pressure with
  | None => ReadsUndefined
  | Some closestPressure =>
      match lookup tbl closestPressure with
      | None => ReadsUndefined
      | Some data => estimateOnCurve closestPressure data temperature
      end
  end.

(** [calculateEnthalpy(temperature, pressure)] *)
Definition calculateEnthalpy (temperature pressure : num)
    : completion estimate :=
  calculateEnthalpyOn steamTableData temperature pressure.

End Estimator.

Arguments curve num : clear implicits.
Arguments table num : clear implicits.
Arguments estimate num : clear implicits.
Arguments bracket num : clear implicits.
Arguments rangeError num : clear implicits.
Arguments completion num A : clear implicits.
Arguments Returns {num A} a.
Arguments Throws {num A} e.
Arguments ReadsUndefined {num A}.

(** *** The page: history, statistics panel and submit handler *)

Section Page.

Context {num : Type} `{JSNumber num}.

(** One element of [dataPoints]. *)
Record dataPoint : Type := {
  pt_temperature : num;
  pt_pressure : num;
  pt_pressureUsed : num;
  pt_enthalpy : num;
  pt_method : method_tag
}.

(** The text of a page element: ['-'], [x.toFixed(2)], or a count. *)
Inductive text : Type :=
| Dash
| Fixed2 (x : num)
| Count (n : nat).

Inductive invalid : Type := TemperatureInvalid | PressureInvalid.

Inductive message : Type :=
| ValidationFailed (errors : list invalid)
| Calculated (h : num) (closest : option num)
| CalculationError (e : rangeError num)
| FormReset.

Inductive kind : Type := success | error | info.

(** The mutable state behind the page: the global [dataPoints], the data
    of the chart instance [enthalpyChart] ([None] while it is [null]), and
    what the elements the script writes to show. *)
Record page : Type := {
  dataPoints : list dataPoint;
  enthalpyChart : option (list num);
  canvasShown : bool;
  currentEnthalpy : text;
  tempError : bool;
  pressError : bool;
  dataPointsText : text;
  avgEnthalpy : text;
  notification : option (message * kind)
}.

(** The page as loaded: [initializeChart(); updateStats()] on no data.
    The elements the script has not written to yet are taken as
    [resetForm] leaves them. *)
Definition initial : page :=
  {| dataPoints := []; enthalpyChart := None; canvasShown := false;
     currentEnthalpy := Dash; tempError := false; pressError := false;
     dataPointsText := Count 0; avgEnthalpy := Dash;
     notification := None |}.

Definition validateInputs (temp press : num) (s : page)
    : list invalid * page :=
  let tempBad := isNaN temp || ltb temp (lit 0%Q) in
  let pressBad := isNaN press || ltb press (lit 0%Q) in
  ((if tempBad then [TemperatureInvalid] else [])
     ++ (if pressBad then [PressureInvalid] else []),
   {| dataPoints := dataPoints s; enthalpyChart := enthalpyChart s;
      canvasShown := canvasShown s; currentEnthalpy := currentEnthalpy s;
      tempError := tempBad; pressError := pressBad;
      dataPointsText := dataPointsText s; avgEnthalpy := avgEnthalpy s;
      notification := notification s |}).

Definition showNotification (m : message) (k : kind) (s : page) : page :=
  {| dataPoints := dataPoints s; enthalpyChart := enthalpyChart s;
     canvasShown := canvasShown s; currentEnthalpy := currentEnthalpy s;
     tempError := tempError s; pressError := pressError s;
     dataPointsText := dataPointsText s; avgEnthalpy := avgEnthalpy s;
     notification := Some (m, k) |}.

Definition updateStats (s : page) : page :=
  let n := length (dataPoints s) in
  {| dataPoints := dataPoints s; enthalpyChart := enthalpyChart s;
     canvasShown := canvasShown s; currentEnthalpy := currentEnthalpy s;
     tempError := tempError s; pressError := pressError s;
     dataPointsText := Count n;
     avgEnthalpy :=
       if (0 <? n)%nat then
         Fixed2 (div (fold_left (fun sum point => add sum (pt_enthalpy point))
                        (dataPoints s) (lit 0%Q))
                     (of_nat n))
       else Dash;
     notification := notification s |}.

(** With no data the canvas is hidden and the function returns, the
    chart instance left as it is; otherwise a new chart replaces it. *)
Definition initializeChart (s : page) : page :=
  match dataPoints s with
  | [] =>
      {| dataPoints := dataPoints s; enthalpyChart := enthalpyChart s;
         canvasShown := false; currentEnthalpy := currentEnthalpy s;
         tempError := tempError s; pressError := pressError s;
         dataPointsText := dataPointsText s; avgEnthalpy := avgEnthalpy s;
         notification := notification s |}
  | _ :: _ =>
      {| dataPoints := dataPoints s;
         enthalpyChart := Some (map pt_enthalpy (dataPoints s));
         canvasShown := true; currentEnthalpy := currentEnthalpy s;
         tempError := tempError s; pressError := pressError s;
         dataPointsText := dataPointsText s; avgEnthalpy := avgEnthalpy s;
         notification := notification s |}
  end.

(** [resetForm()] *)
Definition resetForm (s : page) : page :=
  let s1 :=
    {| dataPoints := []; enthalpyChart := enthalpyChart s;
       canvasShown := canvasShown s; currentEnthalpy := Dash;
       tempError := false; pressError := false;
       dataPointsText := dataPointsText s; avgEnthalpy := avgEnthalpy s;
       notification := notification s |} in
  showNotification FormReset info (initializeChart (updateStats s1)).

(** [dataPoints.push({...})] and the display of the result. *)
Definition recordResult (temperature pressure : num) (result : estimate num)
    (s : page) : page :=
  {| dataPoints :=
       dataPoints s ++
         [ {| pt_temperature := temperature; pt_pressure := pressure;
              pt_pressureUsed := pressureUsed result;
              pt_enthalpy := enthalpy result;
              pt_method := method result |} ];
     enthalpyChart := enthalpyChart s; canvasShown := canvasShown s;
     currentEnthalpy := Fixed2 (enthalpy result);
     tempError := tempError s; pressError := pressError s;
     dataPointsText := dataPointsText s; avgEnthalpy := avgEnthalpy s;
     notification := notification s |}.

(** The submit handler, on the parsed field values.  [None]: the run
    reads [undefined] inside [calculateEnthalpy]. *)
Definition submit (temperature pressure : num) (s : page) : option page :=
  let (errors, s1) := validateInputs temperature pressure s in
  match errors with
  | _ :: _ => Some (showNotification (ValidationFailed errors) error s1)
  | [] =>
      match calculateEnthalpy temperature pressure with
      | Returns result =>
          let s2 := recordResult temperature pressure result s1 in
          let s3 := initializeChart (updateStats s2) in
          Some (showNotification
                  (Calculated (enthalpy result)
                     (if eqb (pressureUsed result) pressure then None
                      else Some (pressureUsed result)))
                  success s3)
      | Throws e => Some (showNotification (CalculationError e) error s1)
      | ReadsUndefined => None
      end
  end.

(** A session: the submissions of a list of field values, in order. *)
Fixpoint submitAll (queries : list (num * num)) (s : page) : option page :=
  match queries with
  | [] => Some s
  | (temperature, pressure) :: rest =>
      match submit temperature pressure s with
      | Some s' => submitAll rest s'
      | None => None
      end
  end.

End Page.

Arguments dataPoint num : clear implicits.
Arguments text num : clear implicits.
Arguments message num : clear implicits.
Arguments page num : clear implicits.

End Steam.

(** ** The air variant *)

Module Air.

Section Page.

Context {num : Type} `{JSNumber num}.

Definition maxDataPoints : nat := 50.

(** [cpDryAir(T)]: [a + b * T + c * T * T]. *)
Definition cpDryAir (T : num) : num :=
  let a := lit 1003.5%Q in
  let b := lit 0.1%Q in
  let c := lit (-0.00002)%Q in
  add (add a (mul b T)) (mul (mul c T) T).

(** [calculateEnthalpy(T)] *)
Definition calculateEnthalpy (T : num) : num := mul (cpDryAir T) T.

Inductive text : Type :=
| Dash
| Fixed2 (x : num)
| Count (n : nat)
| NaNText.

Inductive message : Type :=
| EnthalpyMessage (kJ : num)
| FixInputErrors
| DataReset.

Inductive kind : Type := success | error.

Record chartData (label : Type) : Type := {
  labels : list label;
  data : list num
}.

(** The four parallel global arrays, the data of the chart instance
    ([None] while [chart] is [null]) and what the page shows.  [label] is
    the type of the time stamps.  The first chart shares the global
    arrays and the later ones hold copies of them: at the return of every
    call the chart holds the contents of the arrays, which is what
    [chart] records. *)
Record page (label : Type) : Type := {
  enthalpyData : list num;
  temperatureDataPoints : list num;
  pressureDataPoints : list num;
  timeLabels : list label;
  chart : option (chartData label);
  canvasShown : bool;
  tempError : bool;
  pressError : bool;
  currentEnthalpy : text;
  avgEnthalpy : text;
  dataPoints : text;
  notification : option (message * kind)
}.

Arguments Build_page {label}.
Arguments Build_chartData {label}.
Arguments enthalpyData {label} _.
Arguments temperatureDataPoints {label} _.
Arguments pressureDataPoints {label} _.
Arguments timeLabels {label} _.
Arguments chart {label} _.
Arguments canvasShown {label} _.
Arguments tempError {label} _.
Arguments pressError {label} _.
Arguments currentEnthalpy {label} _.
Arguments avgEnthalpy {label} _.
Arguments dataPoints {label} _.
Arguments notification {label} _.
Arguments labels {label} _.
Arguments data {label} _.

Section Operations.

Context {label : Type}.

(** The page as loaded: empty arrays and no chart; the elements are
    taken as [resetForm] leaves them. *)
Definition initial : page label :=
  Build_page [] [] [] [] None false false false Dash Dash (Count 0) None.

Definition showNotification (m : message) (k : kind) (s : page label)
    : page label :=
  Build_page (enthalpyData s) (temperatureDataPoints s)
    (pressureDataPoints s) (timeLabels s) (chart s) (canvasShown s)
    (tempError s) (pressError s) (currentEnthalpy s) (avgEnthalpy s)
    (dataPoints s) (Some (m, k)).

(** [updateStats()]: [latest] is [undefined] on an empty array and
    then shows as NaN. *)
Definition updateStats (s : page label) : page label :=
  let n := length (enthalpyData s) in
  let avg :=
    div (fold_left (fun a b => add a b) (enthalpyData s) (lit 0%Q))
        (of_nat n) in
  Build_page (enthalpyData s) (temperatureDataPoints s)
    (pressureDataPoints s) (timeLabels s) (chart s) (canvasShown s)
    (tempError s) (pressError s)
    match nth_error (enthalpyData s) (n - 1) with
    | Some latest => Fixed2 (div latest (lit 1000%Q))
    | None => NaNText
    end
    (Fixed2 (div avg (lit 1000%Q)))
    (Count n) (notification s).

(** [array.shift()] *)
Definition shift {A : Type} (l : list A) : list A := tl l.

(** [updateChart(temp, pressure)]; [timestamp] is what
    [new Date().toLocaleTimeString()] gives at the call. *)
Definition updateChart (temp pressure : num) (timestamp : label)
    (s : page label) : page label :=
  let enthalpy := calculateEnthalpy temp in
  let e1 := enthalpyData s ++ [enthalpy] in
  let t1 := temperatureDataPoints s ++ [temp] in
  let p1 := pressureDataPoints s ++ [pressure] in
  let l1 := timeLabels s ++ [timestamp] in
  let trim := (maxDataPoints <? length e1)%nat in
  let e2 := if trim then shift e1 else e1 in
  let t2 := if trim then shift t1 else t1 in
  let p2 := if trim then shift p1 else p1 in
  let l2 := if trim then shift l1 else l1 in
  updateStats
    (Build_page e2 t2 p2 l2 (Some (Build_chartData l2 e2)) true
       (tempError s) (pressError s) (currentEnthalpy s) (avgEnthalpy s)
       (dataPoints s) (notification s)).

(** [validateInput(value)] *)
Definition validateInput (value : num) : bool :=
  negb (isNaN value || leb value (lit 0%Q)).

(** The submit handler, on the parsed field values. *)
Definition submit (temp press : num) (timestamp : label) (s : page label)
    : page label :=
  let tempOk := validateInput temp in
  let pressOk := validateInput press in
  let s1 :=
    Build_page (enthalpyData s) (temperatureDataPoints s)
      (pressureDataPoints s) (timeLabels s) (chart s) (canvasShown s)
      (negb tempOk) (negb pressOk) (currentEnthalpy s) (avgEnthalpy s)
      (dataPoints s) (notification s) in
  if tempOk && pressOk then
    let s2 := updateChart temp press timestamp s1 in
    let enth := calculateEnthalpy temp in
    showNotification (EnthalpyMessage (div enth (lit 1000%Q))) success s2
  else showNotification FixInputErrors error s1.

(** [resetForm()] *)
Definition resetForm (s : page label) : page label :=
  showNotification DataReset success
    (Build_page [] [] [] [] None false false false Dash Dash (Count 0)
       (notification s)).

(** [updateChart] over a list of (temp, pressure, timestamp), in order. *)
Definition updateAll (queries : list (num * num * label))
    (s : page label) : page label :=
  fold_left (fun st q => updateChart (fst (fst q)) (snd (fst q)) (snd q) st)
    queries s.

End Operations.

End Page.

Arguments page num label : clear implicits.
Arguments chartData num label : clear implicits.
Arguments enthalpyData {num label} _.
Arguments temperatureDataPoints {num label} _.
Arguments pressureDataPoints {num label} _.
Arguments timeLabels {num label} _.
Arguments chart {num label} _.
Arguments canvasShown {num label} _.
Arguments tempError {num label} _.
Arguments pressError {num label} _.
Arguments currentEnthalpy {num label} _.
Arguments avgEnthalpy {num label} _.
Arguments dataPoints {num label} _.
Arguments notification {num label} _.
Arguments labels {num label} _.
Arguments data {num label} _.
Arguments Build_page {num label}.
Arguments Build_chartData {num label}.
Arguments text num : clear implicits.
Arguments message num : clear implicits.

End Air.

(** ** What the properties are stated with *)

Module Spec.

Import Steam.

Section Predicates.

Context {num : Type} `{JSNumber num}.

(** What a curve must be for the reads of [calculateEnthalpy] to stay
    inside its arrays: a sample at least, an enthalpy for each
    temperature, and no NaN among the temperatures. *)
Definition curveOk (data : curve num) : bool :=
  (1 <=? length (temperatures data))
  && (length (temperatures data) <=? length (enthalpies data))
  && forallb (fun t => eqb t t) (temperatures data).

(** [|target - level|], the quantity the loop compares. *)
Definition distance (target level : num) : num := abs (sub target level).

(** The state of the loop after the levels [seen]: [closest] is the
    first of them at the least distance. *)
Definition firstMinimum (target : num) (seen : list num) (st : num * num)
    : Prop :=
  snd st = distance target (fst st)
  /\ exists k,
       nth_error seen k = Some (fst st)
       /\ (forall l, In l seen ->
             leb (distance target (fst st)) (distance target l) = true)
       /\ (forall j l, j < k -> nth_error seen j = Some l ->
             ltb (distance target (fst st)) (distance target l) = true).

(** The invariant of a curve: [temperatures[i] < temperatures[i+1]]. *)
Fixpoint increasing (temps : list num) : bool :=
  match temps with
  | a :: (b :: _) as rest => ltb a b && increasing rest
  | _ => true
  end.

(** The divisor of the one division [linearInterpolate] has, when a call
    reaches it: the [return] of the guard comes first. *)
Definition divisorOf (x1 x2 : num)
    : option num :=
  if eqb x1 x2 then None else Some (sub x2 x1).

(** A submission that passes the validation and whose estimate returns. *)
Definition accepted (q : num * num) : bool :=
  negb (isNaN (fst q) || ltb (fst q) (lit 0%Q))
  && negb (isNaN (snd q) || ltb (snd q) (lit 0%Q))
  && match Steam.calculateEnthalpy (fst q) (snd q) with
     | Steam.Returns _ => true
     | _ => false
     end.

End Predicates.

(** A double that is neither NaN nor an infinity. *)
Definition finiteDouble (x : spec_float) : bool :=
  match x with
  | S754_finite _ _ _ | S754_zero _ => true
  | _ => false
  end.

(** The most recent [n] entries of a recording [l], in their order. *)
Definition lastN {A : Type} (n : nat) (l : list A) : list A :=
  skipn (length l - n) l.

(** What a valid submission of the air variant leaves, but for where the
    pressure is kept: the state with [pressureDataPoints] erased. *)
Definition withoutPressure {num label : Type} (s : Air.page num label)
    : Air.page num label :=
  Air.Build_page (Air.enthalpyData s) (Air.temperatureDataPoints s) []
    (Air.timeLabels s) (Air.chart s) (Air.canvasShown s) (Air.tempError s)
    (Air.pressError s) (Air.currentEnthalpy s) (Air.avgEnthalpy s)
    (Air.dataPoints s) (Air.notification s).

End Spec.

(** ** Sessions: the handlers in sequence *)

Module Session.

Section SteamSession.

Context {num : Type} `{JSNumber num}.

(** What the user does on the steam-table page: a submission of the two
    parsed field values, or the reset button. *)
Inductive event : Type :=
| Submit (temperature pressure : num)
| Reset.

Definition step (e : event) (s : Steam.page num) : option (Steam.page num) :=
  match e with
  | Submit temperature pressure => Steam.submit temperature pressure s
  | Reset => Some (Steam.resetForm s)
  end.

Fixpoint run (events : list event) (s : Steam.page num)
    : option (Steam.page num) :=
  match events with
  | [] => Some s
  | e :: rest =>
      match step e s with
      | Some s' => run rest s'
      | None => None
      end
  end.

(** The query an entry of [dataPoints] was recorded for. *)
Definition queryOf (point : Steam.dataPoint num) : num * num :=
  (Steam.pt_temperature point, Steam.pt_pressure point).

(** The submissions that passed the validation and got an estimate,
    since the last reset, after [kept]. *)
Fixpoint sinceReset (events : list event) (kept : list (num * num))
    : list (num * num) :=
  match events with
  | [] => kept
  | Submit temperature pressure :: rest =>
      sinceReset rest
        (if Spec.accepted (temperature, pressure)
         then kept ++ [(temperature, pressure)] else kept)
  | Reset :: rest => sinceReset rest []
  end.

(** An entry of [dataPoints] that holds the estimate of its own query. *)
Definition faithful (point : Steam.dataPoint num) : Prop :=
  exists est,
    Steam.calculateEnthalpy (Steam.pt_temperature point)
      (Steam.pt_pressure point) = Steam.Returns est
    /\ Steam.pt_pressureUsed point = Steam.pressureUsed est
    /\ Steam.pt_enthalpy point = Steam.enthalpy est
    /\ Steam.pt_method point = Steam.method est.

(** The panel and the chart show what a refresh would: [updateStats]
    and [initializeChart] change nothing. *)
Definition inSync (s : Steam.page num) : Prop :=
  Steam.updateStats s = s /\ Steam.initializeChart s = s.

End SteamSession.

Arguments event num : clear implicits.

Section AirSession.

Context {num : Type} `{JSNumber num} {label : Type}.

(** The same on the air page; a submission comes with the time stamp of
    its moment. *)
Inductive airEvent : Type :=
| AirSubmit (temp press : num) (timestamp : label)
| AirReset.

Definition airStep (s : Air.page num label) (e : airEvent)
    : Air.page num label :=
  match e with
  | AirSubmit temp press timestamp => Air.submit temp press timestamp s
  | AirReset => Air.resetForm s
  end.

Definition airRun (events : list airEvent) (s : Air.page num label)
    : Air.page num label :=
  fold_left airStep events s.

(** The valid submissions since the last reset, after [kept]. *)
Fixpoint airSince (events : list airEvent) (kept : list (num * num * label))
    : list (num * num * label) :=
  match events with
  | [] => kept
  | AirSubmit temp press timestamp :: rest =>
      airSince rest
        (if Air.validateInput temp && Air.validateInput press
         then kept ++ [(temp, press, timestamp)] else kept)
  | AirReset :: rest => airSince rest []
  end.

(** The four arrays hold the window on a recording [h]. *)
Definition windowOn (h : list (num * num * label)) (s : Air.page num label)
    : Prop :=
  Air.enthalpyData s
  = Spec.lastN Air.maxDataPoints
      (map (fun q => Air.calculateEnthalpy (fst (fst q))) h)
  /\ Air.temperatureDataPoints s
     = Spec.lastN Air.maxDataPoints (map (fun q => fst (fst q)) h)
  /\ Air.pressureDataPoints s
     = Spec.lastN Air.maxDataPoints (map (fun q => snd (fst q)) h)
  /\ Air.timeLabels s = Spec.lastN Air.maxDataPoints (map snd h).

(** The page shows its arrays: with no entry, no chart, a hidden canvas
    and the texts of a reset; with entries, the chart of the arrays, and
    the texts [updateStats] writes. *)
Definition airInSync (s : Air.page num label) : Prop :=
  match Air.enthalpyData s with
  | [] =>
      Air.chart s = None /\ Air.canvasShown s = false
      /\ Air.currentEnthalpy s = Air.Dash /\ Air.avgEnthalpy s = Air.Dash
      /\ Air.dataPoints s = Air.Count 0
  | _ :: _ =>
      Air.chart s
      = Some (Air.Build_chartData (Air.timeLabels s) (Air.enthalpyData s))
      /\ Air.canvasShown s = true
      /\ Air.updateStats s = s
  end.

End AirSession.

Arguments airEvent num label : clear implicits.

End Session.

(** ** The themes *)

Module Theme.

(** The three colours the steam-table script paints the chart with:
    ['#e0e0e0'], ['#666'] and ['#404040']. *)
Inductive colour : Type := grey_e0 | grey_66 | grey_40.

(** The colours in the options of the chart instance. *)
Record chartColours : Type := {
  xTicks : colour;
  yTicks : colour;
  xGrid : colour;
  yGrid : colour;
  legendLabels : colour;
  yTitle : colour
}.

(** [isDarkTheme], the ['dark-theme'] class of the body, and the colours
    of [enthalpyChart] ([None] while there is no chart). *)
Record state : Type := {
  isDarkTheme : bool;
  bodyDark : bool;
  chart : option chartColours
}.

Definition textColor (dark : bool) : colour :=
  if dark then grey_e0 else grey_66.

Definition gridColor (dark : bool) : colour :=
  if dark then grey_40 else grey_e0.

(** The colours of [chartOptions] in [initializeChart]. *)
Definition chartOptions (dark : bool) : chartColours :=
  {| xTicks := textColor dark; yTicks := textColor dark;
     xGrid := gridColor dark; yGrid := gridColor dark;
     legendLabels := textColor dark; yTitle := textColor dark |}.

(** [updateChartTheme()]: the five assignments; nothing else of the
    options is written. *)
Definition updateChartTheme (dark : bool) (c : chartColours) : chartColours :=
  {| xTicks := textColor dark; yTicks := textColor dark;
     xGrid := gridColor dark; yGrid := gridColor dark;
     legendLabels := textColor dark; yTitle := yTitle c |}.

(** [toggleTheme()] of [script.js]. *)
Definition toggleTheme (s : state) : state :=
  let dark := negb (isDarkTheme s) in
  {| isDarkTheme := dark; bodyDark := dark;
     chart := match chart s with
              | Some c => Some (updateChartTheme dark c)
              | None => None
              end |}.

(** The part of [initializeChart] that makes the chart: with data, a
    new chart in the colours of the theme of the moment. *)
Definition initializeChart (hasData : bool) (s : state) : state :=
  if hasData then
    {| isDarkTheme := isDarkTheme s; bodyDark := bodyDark s;
       chart := Some (chartOptions (isDarkTheme s)) |}
  else s.

Local Open Scope string_scope.

(** [toggleTheme()] of the air variant, on the value of the attribute
    [data-theme] of the document element ([None]: no such attribute).
    [getAttribute(...) || 'light'] takes ['light'] for a missing or empty
    attribute. *)
Definition airToggleTheme (attribute : option String.string)
    : option String.string :=
  let currentTheme :=
    match attribute with
    | Some t => if String.eqb t String.EmptyString then "light" else t
    | None => "light"
    end in
  Some (if String.eqb currentTheme "dark" then "light"
        else "dark").

End Theme.

(** * The order of doubles and of rationals *)

Module NumberTheory.

Section SpecFloatOrder.

Lemma SFcompare_swap (x y : spec_float) :
  SFcompare y x = option_map CompOpp (SFcompare x y).
Proof.
  destruct x as [sx|sx| |sx mx ex], y as [sy|sy| |sy my ey]; simpl;
    try reflexivity;
    try (destruct sx; reflexivity); try (destruct sy; reflexivity);
    try (destruct sx, sy; reflexivity).
  destruct sx, sy; simpl; try reflexivity;
    rewrite (Z.compare_antisym ex ey); destruct (ex ?= ey)%Z; simpl;
    try reflexivity;
    rewrite !Pos.compare_cont_spec; simpl;
    rewrite (Pos.compare_antisym mx my);
    destruct (mx ?= my)%positive; reflexivity.
Qed.

Ltac sf_cases x y z :=
  destruct x as [?s|?s| |?s ?m ?e], y as [?s|?s| |?s ?m ?e],
           z as [?s|?s| |?s ?m ?e]; simpl;
  try discriminate; try reflexivity;
  repeat match goal with s : bool |- _ => destruct s end; simpl;
  try discriminate; try reflexivity;
  rewrite ?Pos.compare_cont_spec; simpl;
  repeat match goal with
         | |- context [(?a ?= ?b)%Z] => destruct (Z.compare_spec a b)
         end; simpl; try discriminate; try reflexivity; try lia; subst;
  repeat match goal with
         | |- context [(?a ?= ?b)%positive] => destruct (Pos.compare_spec a b)
         end; simpl; try discriminate; try reflexivity; try lia.

Lemma SFleb_trans (x y z : spec_float) :
  SFleb x y = true -> SFleb y z = true -> SFleb x z = true.
Proof. unfold SFleb. sf_cases x y z. Qed.

Lemma SFltb_leb_trans (x y z : spec_float) :
  SFltb x y = true -> SFleb y z = true -> SFltb x z = true.
Proof. unfold SFltb, SFleb. sf_cases x y z. Qed.

Lemma SFcompare_None (x y : spec_float) :
  SFcompare x y = None -> SFeqb x x = false \/ SFeqb y y = false.
Proof.
  unfold SFeqb.
  destruct x as [s|s| |s m e], y as [s'|s'| |s' m' e']; simpl; auto;
    try discriminate; try (destruct s; discriminate);
    try (destruct s'; discriminate).
Qed.

End SpecFloatOrder.

#[global] Instance F64_order : JSOrder float.
Proof.
  split; simpl; intros *;
    rewrite ?ltb_spec, ?leb_spec, ?eqb_spec.
  - unfold SFltb, SFleb. now destruct (SFcompare _ _) as [[]|].
  - unfold SFltb, SFleb. rewrite (SFcompare_swap (Prim2SF a) (Prim2SF b)).
    now destruct (SFcompare _ _) as [[]|].
  - unfold SFltb, SFleb, SFeqb. now destruct (SFcompare _ _) as [[]|].
  - intros Ha Hb. unfold SFltb, SFleb.
    rewrite (SFcompare_swap (Prim2SF a) (Prim2SF b)).
    destruct (SFcompare (Prim2SF a) (Prim2SF b)) as [[]|] eqn:E;
      simpl; try discriminate; try reflexivity.
    destruct (SFcompare_None _ _ E); congruence.
  - unfold SFleb. intros Hle.
    destruct (SFeqb (Prim2SF a) (Prim2SF a)) eqn:Ha,
             (SFeqb (Prim2SF b) (Prim2SF b)) eqn:Hb; auto; exfalso;
      unfold SFeqb in *;
      destruct (Prim2SF a) as [[]|[]| |[] ? ?],
               (Prim2SF b) as [[]|[]| |[] ? ?];
      simpl in *; try discriminate;
      rewrite ?Z.compare_refl, ?Pos.compare_cont_spec, ?Pos.compare_refl in *;
      discriminate.
  - unfold SFleb, SFeqb. now destruct (SFcompare _ _) as [[]|].
  - apply SFleb_trans.
  - apply SFltb_leb_trans.
Qed.

Lemma Qlt_bool_iff (a b : Q) : Exact.Qlt_bool a b = true <-> (a < b)%Q.
Proof.
  unfold Exact.Qlt_bool.
  rewrite negb_true_iff, <- not_true_iff_false, Qle_bool_iff.
  split; [apply Qnot_le_lt | apply Qlt_not_le].
Qed.

Lemma Qlt_bool_false (a b : Q) : Exact.Qlt_bool a b = false <-> (b <= a)%Q.
Proof.
  unfold Exact.Qlt_bool. rewrite negb_false_iff, Qle_bool_iff. reflexivity.
Qed.

Lemma Qle_bool_false (a b : Q) : Qle_bool a b = false <-> (b < a)%Q.
Proof.
  rewrite <- not_true_iff_false, Qle_bool_iff.
  split; [apply Qnot_le_lt | apply Qlt_not_le].
Qed.

#[global] Instance Exact_order : JSOrder Q.
Proof.
  split; simpl; intros *;
    rewrite ?Qlt_bool_iff, ?Qlt_bool_false, ?Qle_bool_false, ?Qle_bool_iff,
      ?Qeq_bool_iff;
    repeat split; intros; try reflexivity; lra.
Qed.

(** The literal [2827.4] of the table is the double [0x1.616cccccccccdp+11]. *)
Example lit_double_2827_4 : lit 2827.4 = 0x1.616cccccccccdp+11%float.
Proof. vm_compute. reflexivity. Qed.

End NumberTheory.

(** * Properties of the steam-table estimator *)

Module SteamTheory.

Import Steam Spec NumberTheory.

Section Generic.

Context {num : Type} `{JSNumber num}.

(** The level [findClosestPressure] returns is one of the table's keys. *)
Lemma closerStep_fold_In (target : num) (levels : list num) (st : num * num) :
  fst (fold_left (closerStep target) levels st) = fst st
  \/ In (fst (fold_left (closerStep target) levels st)) levels.
Proof.
  revert st. induction levels as [|l levels IH]; intros st; simpl.
  - now left.
  - destruct (IH (closerStep target st l)) as [E | I].
    + rewrite E. unfold closerStep.
      destruct (ltb _ _); simpl; auto.
    + auto.
Qed.

Lemma closestOf_In (levels : list num) (target c : num) :
  closestOf levels target = Some c -> In c levels.
Proof.
  unfold closestOf. destruct levels as [|first rest]; [discriminate|].
  cbv zeta. intros [= <-].
  destruct (closerStep_fold_In target (first :: rest)
              (first, abs (sub target first))) as [E | I].
  - simpl in E |- *. rewrite E. now left.
  - exact I.
Qed.

Lemma closestOf_total (levels : list num) (target : num) :
  levels <> [] -> exists c, closestOf levels target = Some c.
Proof.
  destruct levels; [congruence|]. intros _. simpl. eauto.
Qed.

(** The [while] loop leaves by its own test: with [temps.length] turns
    allowed, it stops at an index [r] where the test fails, every sample
    it stepped over is [<=] the temperature, and the next one is not. *)
Lemma bracketLoop_spec (temps : list num) (T : num) :
  forall fuel i, length temps - 1 - i <= fuel ->
    let r := bracketLoop fuel temps T i in
    i <= r
    /\ (i <= length temps - 1 -> r <= length temps - 1)
    /\ (forall j, i < j <= r ->
          exists t, nth_error temps j = Some t /\ leb t T = true)
    /\ (r < length temps - 1 ->
          exists t, nth_error temps (r + 1) = Some t /\ leb t T = false).
Proof.
  induction fuel as [|fuel IH]; intros i Hfuel; simpl.
  - repeat split; try lia.
  - destruct (i <? length temps - 1) eqn:Hlt; simpl.
    + apply Nat.ltb_lt in Hlt.
      destruct (nth_error temps (i + 1)) as [t|] eqn:Hn.
      * destruct (leb t T) eqn:Hle.
        -- destruct (IH (i + 1)) as (H1 & H2 & H3 & H4); [lia|].
           repeat split; try lia; try assumption.
           intros j Hj. destruct (Nat.eq_dec j (i + 1)) as [-> | Hne].
           ++ eauto.
           ++ apply H3. lia.
        -- repeat split; try lia. intros _. eauto.
      * apply nth_error_None in Hn. lia.
    + apply Nat.ltb_ge in Hlt. repeat split; lia.
Qed.

Lemma bracketIndex_spec (temps : list num) (T : num) :
  let r := bracketIndex temps T in
  r <= length temps - 1
  /\ (forall j, 0 < j <= r ->
        exists t, nth_error temps j = Some t /\ leb t T = true)
  /\ (r < length temps - 1 ->
        exists t, nth_error temps (r + 1) = Some t /\ leb t T = false).
Proof.
  destruct (bracketLoop_spec temps T (length temps) 0) as (_ & H2 & H3 & H4);
    [lia|].
  repeat split; auto. apply H2. lia.
Qed.

Lemma lookup_In (tbl : table num) (key : num) (data : curve num) :
  lookup tbl key = Some data ->
  exists k, In (k, data) tbl /\ eqb k key = true.
Proof.
  induction tbl as [|[k c] tbl IH]; simpl; [discriminate|].
  destruct (eqb k key) eqn:E.
  - intros [= <-]. eauto.
  - intros Hl. destruct (IH Hl) as (k' & Hin & Hk). eauto.
Qed.

(** Outside the range the call throws, whatever the curve holds. *)
Lemma estimateOnCurve_out_of_range (c : num) (data : curve num)
    (T tmin tmax : num) :
  nth_error (temperatures data) 0 = Some tmin ->
  nth_error (temperatures data) (length (temperatures data) - 1) = Some tmax ->
  ltb T tmin = true \/ gtb T tmax = true ->
  estimateOnCurve c data T
  = Throws {| requested := T; level := c; lower := tmin; upper := tmax |}.
Proof.
  intros Hmin Hmax Hout. unfold estimateOnCurve. rewrite Hmin, Hmax.
  destruct Hout as [-> | ->]; [reflexivity | now rewrite orb_true_r].
Qed.

Section Ordered.

Context {O : JSOrder num}.

(** Inside the range the call returns, from the bracket the loop stopped
    at: an exact match at [temps[i]], or an interpolation between
    [temps[i] <= T <= temps[i + 1]]. *)
Lemma estimateOnCurve_in_range (c : num) (data : curve num)
    (T tmin tmax : num) :
  curveOk data = true ->
  nth_error (temperatures data) 0 = Some tmin ->
  nth_error (temperatures data) (length (temperatures data) - 1) = Some tmax ->
  leb tmin T = true -> leb T tmax = true ->
  let i := bracketIndex (temperatures data) T in
  exists ti hi,
    nth_error (temperatures data) i = Some ti
    /\ nth_error (enthalpies data) i = Some hi
    /\ leb ti T = true
    /\ ((eqb ti T = true
         /\ estimateOnCurve c data T
            = Returns {| enthalpy := hi; pressureUsed := c; method := exact;
                         interpolationData := None |})
        \/ (eqb ti T = false
            /\ exists ti1 hi1,
                nth_error (temperatures data) (i + 1) = Some ti1
                /\ nth_error (enthalpies data) (i + 1) = Some hi1
                /\ ltb T ti1 = true
                /\ estimateOnCurve c data T
                   = Returns
                       {| enthalpy := linearInterpolate T ti ti1 hi hi1;
                          pressureUsed := c; method := interpolated;
                          interpolationData :=
                            Some {| T1 := ti; T2 := ti1;
                                    h1 := hi; h2 := hi1 |} |})).
Proof.
  intros Hok Hmin Hmax Hlo Hhi i.
  unfold curveOk in Hok. apply andb_prop in Hok as [Hok Hnan].
  apply andb_prop in Hok as [Hlen1 Hlen2].
  apply Nat.leb_le in Hlen1, Hlen2.
  rewrite forallb_forall in Hnan.
  assert (HT : eqb T T = true) by (apply (leb_defined _ _ Hlo)).
  assert (Hlt1 : ltb T tmin = false).
  { destruct (ltb T tmin) eqn:E; [|reflexivity].
    apply ltb_not_leb in E. congruence. }
  assert (Hlt2 : ltb tmax T = false).
  { destruct (ltb tmax T) eqn:E; [|reflexivity].
    apply ltb_not_leb in E. congruence. }
  destruct (bracketIndex_spec (temperatures data) T) as (Hr & Hstep & Hexit).
  fold i in Hr, Hstep, Hexit.
  destruct (nth_error (temperatures data) i) as [ti|] eqn:Hti;
    [|apply nth_error_None in Hti; lia].
  destruct (nth_error (enthalpies data) i) as [hi|] eqn:Hhi';
    [|apply nth_error_None in Hhi'; lia].
  assert (Hle : leb ti T = true).
  { destruct (Nat.eq_dec i 0) as [E | E].
    - rewrite E in Hti. congruence.
    - destruct (Hstep i) as (t & Ht & Hle); [lia|]. congruence. }
  exists ti, hi. repeat split; try assumption.
  unfold estimateOnCurve. rewrite Hmin, Hmax.
  unfold gtb. rewrite Hlt1, Hlt2. cbn [orb]. cbv zeta. fold i.
  rewrite Hti, Hhi'.
  destruct (eqb ti T) eqn:Heq; [left; now split | right; split; [reflexivity|]].
  assert (Hi : i < length (temperatures data) - 1).
  { destruct (Nat.eq_dec i (length (temperatures data) - 1)) as [E | E]; [|lia].
    rewrite E in Hti. rewrite Hti in Hmax. injection Hmax as ->.
    rewrite (leb_ltb_eqb _ _ Hle Hlt2) in Heq. discriminate. }
  destruct (Hexit Hi) as (ti1 & Hti1 & Hgt).
  destruct (nth_error (enthalpies data) (i + 1)) as [hi1|] eqn:Hhi1;
    [|apply nth_error_None in Hhi1; lia].
  exists ti1, hi1. rewrite Hti1. repeat split.
  apply leb_total; try assumption.
  apply Hnan. eapply nth_error_In; eassumption.
Qed.

(** With two samples or more, and an enthalpy for each, no read of the
    call falls outside the arrays, whatever the temperature (NaN too). *)
Lemma estimateOnCurve_defined (c : num) (data : curve num) (T : num) :
  2 <= length (temperatures data) ->
  length (temperatures data) <= length (enthalpies data) ->
  estimateOnCurve c data T <> ReadsUndefined.
Proof.
  intros Hlen1 Hlen2. unfold estimateOnCurve.
  destruct (nth_error (temperatures data) 0) as [tmin|] eqn:Hmin;
    [|apply nth_error_None in Hmin; lia].
  destruct (nth_error (temperatures data) (length (temperatures data) - 1))
    as [tmax|] eqn:Hmax; [|apply nth_error_None in Hmax; lia].
  destruct (ltb T tmin || gtb T tmax) eqn:Hrange; [discriminate|].
  apply orb_false_elim in Hrange as [_ Hgt]. unfold gtb in Hgt.
  cbv zeta.
  destruct (bracketIndex_spec (temperatures data) T) as (Hr & Hstep & Hexit).
  set (i := bracketIndex (temperatures data) T) in *.
  destruct (nth_error (temperatures data) i) as [ti|] eqn:Hti;
    [|apply nth_error_None in Hti; lia].
  destruct (nth_error (enthalpies data) i) as [hi|] eqn:Hhi;
    [|apply nth_error_None in Hhi; lia].
  destruct (eqb ti T) eqn:Heq; [discriminate|].
  assert (Hi : i < length (temperatures data) - 1).
  { destruct (Nat.eq_dec i (length (temperatures data) - 1)) as [E | E]; [|lia].
    destruct (Hstep i) as (t & Ht & Hle); [lia|].
    rewrite E in Hti, Ht. assert (t = tmax) by congruence.
    assert (ti = tmax) by congruence. subst t ti.
    rewrite (leb_ltb_eqb _ _ Hle Hgt) in Heq. discriminate. }
  destruct (nth_error (temperatures data) (i + 1)) as [ti1|] eqn:Hti1;
    [|apply nth_error_None in Hti1; lia].
  destruct (nth_error (enthalpies data) (i + 1)) as [hi1|] eqn:Hhi1;
    [|apply nth_error_None in Hhi1; lia].
  discriminate.
Qed.

End Ordered.

End Generic.

(** ** The repository's table, on doubles *)

Section OnDoubles.

Local Abbreviation steamTable := (steamTableData (num := float)).
Local Open Scope float_scope.

Lemma steam_levels : map fst steamTable = [10; 20; 30; 50; 90].
Proof. vm_compute. reflexivity. Qed.

(** Every request selects one of the five levels and its curve, which has
    seven samples or more, an enthalpy for each, and no NaN. *)
Lemma steam_selected (p : float) :
  exists c data,
    findClosestPressure steamTable p = Some c
    /\ lookup steamTable c = Some data
    /\ In (c, data) steamTable.
Proof.
  destruct (closestOf_total (map fst steamTable) p) as (c & Hc);
    [discriminate|].
  exists c. pose proof (closestOf_In _ _ _ Hc) as Hin.
  rewrite steam_levels in Hin. unfold findClosestPressure. rewrite Hc.
  simpl in Hin.
  repeat (destruct Hin as [<- | Hin];
          [eexists; split; [reflexivity|]; vm_compute; tauto|]).
  contradiction.
Qed.

Lemma steam_lookup (p c : float) (data : curve float) :
  findClosestPressure steamTable p = Some c ->
  lookup steamTable c = Some data ->
  In (c, data) steamTable.
Proof.
  intros Hc Hl. destruct (steam_selected p) as (c' & data' & Hc' & Hl' & Hin).
  congruence.
Qed.

Lemma steam_curves_ok (c : float) (data : curve float) :
  In (c, data) steamTable ->
  curveOk data = true /\ 7 <= length (temperatures data)
  /\ length (enthalpies data) = length (temperatures data).
Proof.
  intros Hin.
  repeat (destruct Hin as [[= <- <-] | Hin];
          [vm_compute; repeat split; lia|]).
  contradiction.
Qed.

End OnDoubles.

(** ** The estimator on the table *)

Section Scenario.

Local Open Scope float_scope.

(** C1. On the 10 kg/cm2G curve, [calculateEnthalpy(225, 10)] returns the
    method [interpolated], [pressureUsed] 10 and the enthalpy
    [2827.4 + ((225 - 200) / (250 - 200)) * (2957.2 - 2827.4)], which is
    the number [2892.3]: as doubles (the same double as the literal
    [2892.3]) and as exact rationals. *)
Theorem concrete_scenario_225_10 :
  calculateEnthalpy (num := float) 225 10
  = Returns {| enthalpy := lit 2892.3%Q; pressureUsed := 10;
               method := interpolated;
               interpolationData :=
                 Some {| T1 := 200; T2 := 250;
                         h1 := lit 2827.4%Q; h2 := lit 2957.2%Q |} |}
  /\ lit 2892.3%Q
     = lit 2827.4%Q
       + ((225 - 200) / (250 - 200)) * (lit 2957.2%Q - lit 2827.4%Q)
  /\ exists est : estimate Q,
       calculateEnthalpy (num := Q) 225%Q 10%Q = Returns est
       /\ method est = interpolated
       /\ (pressureUsed est == 10)%Q
       /\ (enthalpy est
           == 2827.4 + ((225 - 200) / (250 - 200)) * (2957.2 - 2827.4))%Q
       /\ (enthalpy est == 2892.3)%Q.
Proof.
  split; [vm_compute; reflexivity|].
  split; [vm_compute; reflexivity|].
  eexists. split; [vm_compute; reflexivity|].
  cbn [method pressureUsed enthalpy].
  repeat split; reflexivity.
Qed.

End Scenario.

(** C3. A temperature below the first sample of the selected curve, or
    above its last, makes [calculateEnthalpy] throw the error built from
    the requested temperature, the selected level and the two bounds; no
    estimate is returned, and the submit handler leaves [dataPoints], the
    chart and the statistics as they were and only shows the error. *)
Theorem out_of_range_fails {num : Type} `{JSNumber num}
    (T p c : num) (data : curve num) (tmin tmax : num) :
  findClosestPressure steamTableData p = Some c ->
  lookup steamTableData c = Some data ->
  nth_error (temperatures data) 0 = Some tmin ->
  nth_error (temperatures data) (length (temperatures data) - 1) = Some tmax ->
  ltb T tmin = true \/ gtb T tmax = true ->
  calculateEnthalpy T p
  = Throws {| requested := T; level := c; lower := tmin; upper := tmax |}
  /\ forall s : page num,
       exists s',
         submit T p s = Some s'
         /\ dataPoints s' = dataPoints s
         /\ enthalpyChart s' = enthalpyChart s
         /\ canvasShown s' = canvasShown s
         /\ currentEnthalpy s' = currentEnthalpy s
         /\ dataPointsText s' = dataPointsText s
         /\ avgEnthalpy s' = avgEnthalpy s
         /\ exists m, notification s' = Some (m, error).
Proof.
  intros Hc Hl Hmin Hmax Hout.
  assert (Hthrow : calculateEnthalpy T p
                   = Throws {| requested := T; level := c;
                               lower := tmin; upper := tmax |}).
  { unfold calculateEnthalpy, calculateEnthalpyOn. rewrite Hc, Hl.
    now apply estimateOnCurve_out_of_range. }
  split; [exact Hthrow|].
  intros s. unfold submit, validateInputs.
  destruct (isNaN T || ltb T (lit 0%Q)), (isNaN p || ltb p (lit 0%Q));
    cbn [app]; rewrite ?Hthrow;
    eexists; (split; [reflexivity|]); cbn; repeat split; eauto.
Qed.

Lemma out_of_range_fails_witness :
  calculateEnthalpy (num := float) 199%float 10%float
  = Throws {| requested := 199%float; level := 10%float;
              lower := 200%float; upper := 600%float |}
  /\ forall s : page float,
       exists s',
         submit 199%float 10%float s = Some s'
         /\ dataPoints s' = dataPoints s
         /\ enthalpyChart s' = enthalpyChart s
         /\ canvasShown s' = canvasShown s
         /\ currentEnthalpy s' = currentEnthalpy s
         /\ dataPointsText s' = dataPointsText s
         /\ avgEnthalpy s' = avgEnthalpy s
         /\ exists m, notification s' = Some (m, error).
Proof.
  eapply (out_of_range_fails (num := float) 199%float 10%float 10%float);
    [reflexivity | reflexivity | reflexivity | reflexivity
    | left; reflexivity].
Defined.

(** C5. For every curve the table selects and every temperature within
    its first and last sample, the call returns, and either it is an
    exact match at a sample [T1 === T], or the bracket [(T1, T2)] it
    reports is a pair of adjacent samples with [T1 <= T <= T2]. *)
Theorem bracket_selection (T p c : float) (data : curve float)
    (tmin tmax : float) :
  findClosestPressure steamTableData p = Some c ->
  lookup steamTableData c = Some data ->
  nth_error (temperatures data) 0 = Some tmin ->
  nth_error (temperatures data) (length (temperatures data) - 1) = Some tmax ->
  leb tmin T = true -> leb T tmax = true ->
  exists est,
    calculateEnthalpy T p = Returns est
    /\ ((method est = exact
         /\ exists i t1,
             nth_error (temperatures data) i = Some t1
             /\ eqb t1 T = true
             /\ nth_error (enthalpies data) i = Some (enthalpy est))
        \/ (method est = interpolated
            /\ exists i b,
                interpolationData est = Some b
                /\ nth_error (temperatures data) i = Some (T1 b)
                /\ nth_error (temperatures data) (i + 1) = Some (T2 b)
                /\ leb (T1 b) T = true
                /\ leb T (T2 b) = true)).
Proof.
  intros Hc Hl Hmin Hmax Hlo Hhi.
  destruct (steam_curves_ok c data (steam_lookup _ _ _ Hc Hl)) as (Hok & _).
  unfold calculateEnthalpy, calculateEnthalpyOn. rewrite Hc, Hl.
  destruct (estimateOnCurve_in_range c data T tmin tmax Hok Hmin Hmax Hlo Hhi)
    as (ti & hi & Hti & Hhi' & Hle
        & [[Heq ->] | [Hne (ti1 & hi1 & Hti1 & Hhi1 & Hlt & ->)]]).
  - eexists. split; [reflexivity|]. left. split; [reflexivity|].
    exists (bracketIndex (temperatures data) T), ti. auto.
  - eexists. split; [reflexivity|]. right. split; [reflexivity|].
    exists (bracketIndex (temperatures data) T). eexists.
    split; [reflexivity|]. cbn [T1 T2].
    repeat split; try assumption. now apply ltb_leb.
Qed.

Lemma bracket_selection_witness :
  exists est,
    calculateEnthalpy 225%float 10%float = Returns est
    /\ ((method est = exact
         /\ exists i t1,
             nth_error (map lit [200; 250; 300; 350; 400; 450; 500; 550; 600]%Q)
               i = Some t1
             /\ eqb t1 225%float = true
             /\ nth_error
                  (map lit [2827.4; 2957.2; 3051.2; 3157.7; 3264.5;
                            3373.7; 3486.8; 3603.4; 3723.4]%Q) i
                = Some (enthalpy est))
        \/ (method est = interpolated
            /\ exists i b,
                interpolationData est = Some b
                /\ nth_error
                     (map lit [200; 250; 300; 350; 400; 450; 500; 550; 600]%Q)
                     i = Some (T1 b)
                /\ nth_error
                     (map lit [200; 250; 300; 350; 400; 450; 500; 550; 600]%Q)
                     (i + 1) = Some (T2 b)
                /\ leb (T1 b) 225%float = true
                /\ leb 225%float (T2 b) = true)).
Proof.
  apply (bracket_selection 225%float 10%float 10%float
           {| temperatures :=
                map lit [200; 250; 300; 350; 400; 450; 500; 550; 600]%Q;
              enthalpies :=
                map lit [2827.4; 2957.2; 3051.2; 3157.7; 3264.5;
                         3373.7; 3486.8; 3603.4; 3723.4]%Q |}
           200%float 600%float); reflexivity.
Defined.

(** C6. For every pressure, the estimate at the first temperature of the
    selected curve is [exact] with the first enthalpy, and the estimate at
    its last temperature is [exact] with the last enthalpy. *)
Theorem boundary_exact (p c : float) (data : curve float)
    (tmin tmax h0 hlast : float) :
  findClosestPressure steamTableData p = Some c ->
  lookup steamTableData c = Some data ->
  nth_error (temperatures data) 0 = Some tmin ->
  nth_error (temperatures data) (length (temperatures data) - 1) = Some tmax ->
  nth_error (enthalpies data) 0 = Some h0 ->
  nth_error (enthalpies data) (length (enthalpies data) - 1) = Some hlast ->
  calculateEnthalpy tmin p
  = Returns {| enthalpy := h0; pressureUsed := c; method := exact;
               interpolationData := None |}
  /\ calculateEnthalpy tmax p
     = Returns {| enthalpy := hlast; pressureUsed := c; method := exact;
                  interpolationData := None |}.
Proof.
  intros Hc Hl Hmin Hmax Hh0 Hhl.
  pose proof (steam_lookup _ _ _ Hc Hl) as Hin.
  unfold calculateEnthalpy, calculateEnthalpyOn. rewrite Hc, Hl.
  repeat (destruct Hin as [[= <- <-] | Hin];
          [vm_compute in Hmin, Hmax, Hh0, Hhl;
           injection Hmin as <-; injection Hmax as <-;
           injection Hh0 as <-; injection Hhl as <-;
           split; vm_compute; reflexivity|]).
  contradiction.
Qed.

Lemma boundary_exact_witness :
  calculateEnthalpy 212%float 22%float
  = Returns {| enthalpy := lit 2799.5%Q; pressureUsed := 20%float;
               method := exact; interpolationData := None |}
  /\ calculateEnthalpy 600%float 22%float
     = Returns {| enthalpy := lit 3712.0%Q; pressureUsed := 20%float;
                  method := exact; interpolationData := None |}.
Proof.
  apply (boundary_exact 22%float 20%float
           {| temperatures :=
                map lit [212; 250; 300; 350; 400; 450; 500; 550; 600]%Q;
              enthalpies :=
                map lit [2799.5; 2902.5; 3023.5; 3137.0; 3248.4;
                         3360.8; 3475.2; 3592.2; 3712.0]%Q |}
           212%float 600%float (lit 2799.5%Q) (lit 3712.0%Q)); reflexivity.
Defined.

(** ** Pressure selection *)

Section Selection.

Context {num : Type} `{JSNumber num} {O : JSOrder num}.

Lemma ltb_irrefl (a : num) : ltb a a = false.
Proof.
  destruct (ltb a a) eqn:E; [|reflexivity].
  pose proof (ltb_leb _ _ E) as H1. pose proof (ltb_not_leb _ _ E) as H2.
  congruence.
Qed.

Lemma firstMinimum_step (target : num) (seen : list num) (st : num * num)
    (x : num) :
  eqb (distance target x) (distance target x) = true ->
  Forall (fun l => eqb (distance target l) (distance target l) = true) seen ->
  firstMinimum target seen st ->
  firstMinimum target (seen ++ [x]) (closerStep target st x).
Proof.
  intros Hx Hseen (Hd & k & Hk & Hmin & Hfirst).
  unfold closerStep. fold (distance target x). rewrite Hd.
  assert (Hkin : In (fst st) seen) by (eapply nth_error_In; eassumption).
  assert (Hklen : k < length seen) by (apply nth_error_Some; congruence).
  destruct (ltb (distance target x) (distance target (fst st))) eqn:Hlt.
  - split; [reflexivity|]. cbn [fst snd].
    assert (Hall : forall l, In l seen ->
              ltb (distance target x) (distance target l) = true).
    { intros l Hl. eapply ltb_leb_trans; [exact Hlt | now apply Hmin]. }
    exists (length seen). repeat split.
    + rewrite nth_error_app2, Nat.sub_diag; [reflexivity | lia].
    + intros l Hl. apply in_app_or in Hl as [Hl | [<- | []]].
      * now apply ltb_leb, Hall.
      * now apply leb_refl.
    + intros j l Hj Hl. rewrite nth_error_app1 in Hl by exact Hj.
      apply Hall. eapply nth_error_In; eassumption.
  - split; [exact Hd|]. exists k. repeat split.
    + rewrite nth_error_app1; [exact Hk | exact Hklen].
    + intros l Hl. apply in_app_or in Hl as [Hl | [<- | []]].
      * now apply Hmin.
      * destruct (leb (distance target (fst st)) (distance target x)) eqn:Hle;
          [reflexivity|].
        rewrite Forall_forall in Hseen.
        apply leb_total in Hle; [congruence | now apply Hseen | exact Hx].
    + intros j l Hj Hl. apply (Hfirst j l Hj).
      rewrite nth_error_app1 in Hl; [exact Hl | lia].
Qed.

Lemma firstMinimum_fold (target : num) (rest seen : list num)
    (st : num * num) :
  Forall (fun l => eqb (distance target l) (distance target l) = true)
    (seen ++ rest) ->
  firstMinimum target seen st ->
  firstMinimum target (seen ++ rest) (fold_left (closerStep target) rest st).
Proof.
  revert seen st. induction rest as [|x rest IH]; intros seen st Hall Hst.
  - now rewrite app_nil_r.
  - cbn [fold_left].
    replace (seen ++ x :: rest) with ((seen ++ [x]) ++ rest) in *
      by now rewrite <- app_assoc.
    apply IH; [exact Hall|].
    apply Forall_app in Hall as [Hall _].
    apply Forall_app in Hall as [Hseen Hx].
    apply firstMinimum_step; [now inversion Hx | exact Hseen | exact Hst].
Qed.

(** [findClosestPressure] returns the first level, in the order of the
    keys, at the least distance from the target. *)
Lemma closestOf_firstMinimum (levels : list num) (target c : num) :
  Forall (fun l => eqb (distance target l) (distance target l) = true) levels ->
  closestOf levels target = Some c ->
  exists k,
    nth_error levels k = Some c
    /\ (forall l, In l levels ->
          leb (distance target c) (distance target l) = true)
    /\ (forall j l, j < k -> nth_error levels j = Some l ->
          ltb (distance target c) (distance target l) = true).
Proof.
  intros Hall. unfold closestOf.
  destruct levels as [|first rest]; [discriminate|]. cbv zeta.
  intros [= <-].
  assert (Hfirst : eqb (distance target first) (distance target first) = true)
    by now inversion Hall.
  assert (H0 : firstMinimum target [first]
                 (closerStep target (first, abs (sub target first)) first)).
  { unfold closerStep. cbn [fst snd]. rewrite ltb_irrefl.
    split; [reflexivity|]. cbn [fst]. exists 0. repeat split.
    - intros l [<- | []]. now apply leb_refl.
    - intros j l Hj. lia. }
  destruct (firstMinimum_fold target rest [first] _ Hall H0)
    as (_ & k & Hk & Hmin & Hlt).
  exists k. repeat split; assumption.
Qed.

End Selection.

(** Whatever the call on a curve gives carries the level it was given. *)
Lemma estimateOnCurve_level {num : Type} `{JSNumber num}
    (c : num) (data : curve num) (T : num) :
  match estimateOnCurve c data T with
  | Returns est => pressureUsed est = c
  | Throws e => level e = c
  | ReadsUndefined => True
  end.
Proof.
  unfold estimateOnCurve. cbv zeta.
  destruct (nth_error (temperatures data) 0) as [tmin|]; [|exact I].
  destruct (nth_error (temperatures data) _) as [tmax|]; [|exact I].
  destruct (ltb T tmin || gtb T tmax); [reflexivity|].
  destruct (nth_error (temperatures data) _) as [ti|]; [|exact I].
  destruct (nth_error (enthalpies data) _) as [hi|]; [|exact I].
  destruct (eqb ti T); [reflexivity|].
  destruct (nth_error (temperatures data) _) as [ti1|]; [|exact I].
  destruct (nth_error (enthalpies data) _) as [hi1|]; [reflexivity | exact I].
Qed.

(** On the repository's table, on doubles, every call returns or throws. *)
Lemma calculateEnthalpy_defined (T p : float) :
  calculateEnthalpy T p <> ReadsUndefined.
Proof.
  destruct (steam_selected p) as (c & data & Hc & Hl & Hin).
  unfold calculateEnthalpy, calculateEnthalpyOn. rewrite Hc, Hl.
  destruct (steam_curves_ok c data Hin) as (_ & Hlen & Hlen').
  apply estimateOnCurve_defined; lia.
Qed.

(** So the submit handler always ends in a page. *)
Lemma submit_defined (T p : float) (s : page float) :
  exists s', submit T p s = Some s'.
Proof.
  unfold submit. destruct (validateInputs T p s) as [[|e errors] s1]; eauto.
  pose proof (calculateEnthalpy_defined T p) as Hdef.
  destruct (calculateEnthalpy T p); eauto. congruence.
Qed.

(** *** The distances on doubles

    A subtraction of doubles gives NaN only from NaN or from two
    infinities: the distance from a pressure that is a number to a level
    of the table is a number. *)

Lemma shr_1_nonneg (mrs : shr_record) :
  (0 <= shr_m mrs -> 0 <= shr_m (shr_1 mrs))%Z.
Proof.
  destruct mrs as [m r s]. cbn [shr_m].
  destruct m as [|[q|q|]|q]; cbn; lia.
Qed.

Lemma iter_shr_1_nonneg (n : positive) :
  forall mrs, (0 <= shr_m mrs -> 0 <= shr_m (iter_pos shr_1 n mrs))%Z.
Proof.
  induction n as [n IH|n IH|]; intros mrs Hm; cbn [iter_pos].
  - apply IH, IH, shr_1_nonneg, Hm.
  - apply IH, IH, Hm.
  - apply shr_1_nonneg, Hm.
Qed.

Lemma shr_fexp_nonneg (m e : Z) (l : location) :
  (0 <= m -> 0 <= shr_m (fst (shr_fexp prec emax m e l)))%Z.
Proof.
  intros Hm. unfold shr_fexp, shr.
  assert (H0 : (0 <= shr_m (shr_record_of_loc m l))%Z)
    by (destruct l as [|[]]; exact Hm).
  destruct (_ - e)%Z; cbn [fst]; auto using iter_shr_1_nonneg.
Qed.

Lemma round_nearest_even_nonneg (m : Z) (l : location) :
  (0 <= m -> 0 <= round_nearest_even m l)%Z.
Proof.
  intros Hm. destruct l as [|[]]; cbn; try lia. destruct (Z.even m); lia.
Qed.

Lemma binary_round_aux_not_nan (s : bool) (m e : Z) (l : location) :
  (0 <= m)%Z -> binary_round_aux prec emax s m e l <> S754_nan.
Proof.
  intros Hm. unfold binary_round_aux.
  pose proof (shr_fexp_nonneg m e l Hm) as H1.
  destruct (shr_fexp prec emax m e l) as [mrs e']. cbn [fst] in H1.
  pose proof (shr_fexp_nonneg _ e' loc_Exact
                (round_nearest_even_nonneg _ (loc_of_shr_record mrs) H1))
    as H2.
  destruct (shr_fexp prec emax _ e' loc_Exact) as [mrs' e''].
  cbn [fst] in H2.
  destruct (shr_m mrs'); try discriminate; try lia.
  destruct (_ <=? _)%Z; discriminate.
Qed.

Lemma binary_normalize_not_nan (m e : Z) (z : bool) :
  binary_normalize prec emax m e z <> S754_nan.
Proof.
  unfold binary_normalize, binary_round.
  destruct m; try discriminate;
    destruct (shl_align _ _ _); apply binary_round_aux_not_nan; lia.
Qed.

Lemma SFsub_not_nan (x y : spec_float) :
  x <> S754_nan -> finiteDouble y = true ->
  SFsub prec emax x y <> S754_nan.
Proof.
  intros Hx Hy.
  destruct x as [sx|sx| |sx mx ex], y as [sy|sy| |sy my ey];
    try discriminate; try congruence; cbn;
    try (destruct sx, sy; discriminate).
  apply binary_normalize_not_nan.
Qed.

Lemma SFeqb_refl (x : spec_float) : x <> S754_nan -> SFeqb x x = true.
Proof.
  unfold SFeqb. destruct x as [[]|[]| |[] m e]; cbn; try congruence;
    intros _;
    now rewrite Z.compare_refl, Pos.compare_cont_spec, Pos.compare_refl.
Qed.

Lemma SFeqb_not_nan (x : spec_float) : SFeqb x x = true -> x <> S754_nan.
Proof. now destruct x. Qed.

Lemma double_distance_defined (p l : float) :
  isNaN p = false -> finiteDouble (Prim2SF l) = true ->
  eqb (distance p l) (distance p l) = true.
Proof.
  unfold isNaN, distance. cbn [eqb abs sub F64.number].
  intros Hp Hl. apply negb_false_iff in Hp.
  rewrite eqb_spec in *. apply SFeqb_refl.
  rewrite abs_spec, sub_spec.
  pose proof (SFsub_not_nan (Prim2SF p) (Prim2SF l) (SFeqb_not_nan _ Hp) Hl)
    as H.
  unfold SF64sub. destruct (SFsub prec emax _ _); cbn; congruence.
Qed.

(** The claim of the level at the least absolute difference, on doubles:
    at the pressure 2^59, a double the form accepts, the distances to 50
    and to 90 round to one double, and the selection stays at 50 though 90
    is nearer, which is what exact arithmetic selects. *)
Lemma nearest_pressure_not_nearest_at_2p59 :
  findClosestPressure (num := float) steamTableData
    (lit 576460752303423488%Q) = Some 50%float
  /\ Prim2SF (lit 576460752303423488%Q)
     = S754_finite false 4503599627370496 7
  /\ fst (validateInputs 225%float (lit 576460752303423488%Q) initial) = []
  /\ In 90%float (map fst (steamTableData (num := float)))
  /\ distance (num := float) (lit 576460752303423488%Q) 90%float
     = distance (lit 576460752303423488%Q) 50%float
  /\ (Qabs (576460752303423488 - 90) < Qabs (576460752303423488 - 50))%Q
  /\ findClosestPressure (num := Q) steamTableData 576460752303423488%Q
     = Some 90%Q.
Proof.
  repeat split; try (vm_compute; reflexivity).
  vm_compute. tauto.
Qed.

(** C4, as the code has it.  [findClosestPressure] returns the first
    level, in the order of the keys, at which the distance
    [|pressure - level|] as the code computes it is least: no level has
    a smaller computed distance, and every earlier level has a strictly
    greater one (the comparison is [<], so a later level at the same
    computed distance does not replace it).  In exact arithmetic that is
    the level at the least absolute difference; on doubles it is so as
    long as rounding keeps the distances apart.  The keys of the table
    are [10, 20, 30, 50, 90], so at the pressure 15, at distance 5 from
    both 10 and 20, the level is 10, for every temperature. *)
Theorem nearest_pressure_first_wins :
  (forall p c : float,
      isNaN p = false ->
      findClosestPressure steamTableData p = Some c ->
      exists k,
        nth_error [10; 20; 30; 50; 90]%float k = Some c
        /\ (forall l, In l [10; 20; 30; 50; 90]%float ->
              leb (distance p c) (distance p l) = true)
        /\ (forall j l, j < k ->
              nth_error [10; 20; 30; 50; 90]%float j = Some l ->
              ltb (distance p c) (distance p l) = true))
  /\ (forall p c : Q,
        findClosestPressure steamTableData p = Some c ->
        exists k,
          nth_error [10; 20; 30; 50; 90]%Q k = Some c
          /\ (forall l, In l [10; 20; 30; 50; 90]%Q ->
                (Qabs (p - c) <= Qabs (p - l))%Q)
          /\ (forall j l, j < k ->
                nth_error [10; 20; 30; 50; 90]%Q j = Some l ->
                (Qabs (p - c) < Qabs (p - l))%Q))
  /\ map fst (steamTableData (num := float))
     = [10; 20; 30; 50; 90]%float
  /\ findClosestPressure steamTableData nan = Some 10%float
  /\ distance 15%float 10%float = distance 15%float 20%float
  /\ findClosestPressure steamTableData 15%float = Some 10%float
  /\ forall T : float,
       match calculateEnthalpy T 15%float with
       | Returns est => pressureUsed est = 10%float
       | Throws e => level e = 10%float
       | ReadsUndefined => False
       end.
Proof.
  split; [|split; [|split; [|split; [|split; [|split]]]]].
  - intros p c Hp Hc. unfold findClosestPressure in Hc.
    rewrite steam_levels in Hc.
    apply closestOf_firstMinimum; [|exact Hc].
    apply Forall_forall. intros l Hl. apply double_distance_defined; [exact Hp|].
    cbn in Hl.
    repeat (destruct Hl as [<- | Hl]; [vm_compute; reflexivity|]).
    contradiction.
  - intros p c Hc. unfold findClosestPressure in Hc.
    destruct (closestOf_firstMinimum
                (map fst (steamTableData (num := Q))) p c)
      as (k & Hk & Hmin & Hfirst); [|exact Hc|].
    { apply Forall_forall. intros l _. apply Qeq_bool_iff. reflexivity. }
    exists k. split; [exact Hk|]. split.
    + intros l Hl. apply Qle_bool_iff. now apply Hmin.
    + intros j l Hj Hl. apply Qlt_bool_iff. now apply (Hfirst j l).
  - exact steam_levels.
  - vm_compute. reflexivity.
  - vm_compute. reflexivity.
  - vm_compute. reflexivity.
  - intros T. pose proof (calculateEnthalpy_defined T 15%float) as Hdef.
    unfold calculateEnthalpy, calculateEnthalpyOn in *.
    replace (findClosestPressure steamTableData 15%float)
      with (Some 10%float) in * by (vm_compute; reflexivity).
    destruct (lookup steamTableData 10%float) as [data|];
      [|congruence].
    pose proof (estimateOnCurve_level 10%float data T) as Hlevel.
    destruct (estimateOnCurve 10%float data T); [exact Hlevel..|congruence].
Qed.

Lemma nearest_pressure_first_wins_witness :
  exists k,
    nth_error [10; 20; 30; 50; 90]%float k = Some 20%float
    /\ (forall l, In l [10; 20; 30; 50; 90]%float ->
          leb (distance 24%float 20%float) (distance 24%float l) = true)
    /\ (forall j l, j < k ->
          nth_error [10; 20; 30; 50; 90]%float j = Some l ->
          ltb (distance 24%float 20%float) (distance 24%float l) = true).
Proof.
  apply (proj1 nearest_pressure_first_wins 24%float 20%float); reflexivity.
Defined.

(** ** Linearity, in exact arithmetic *)

Section Increasing.

Context {num : Type} `{JSNumber num} {O : JSOrder num}.

Lemma increasing_head (a : num) (rest : list num) :
  increasing (a :: rest) = true ->
  forall j b, nth_error rest j = Some b -> ltb a b = true.
Proof.
  revert a. induction rest as [|b' rest IH]; intros a Hinc j b Hj.
  - destruct j; discriminate.
  - cbn [increasing] in Hinc. apply andb_prop in Hinc as [Hab Hrest].
    destruct j as [|j]; cbn in Hj.
    + now injection Hj as <-.
    + eapply ltb_leb_trans; [exact Hab|].
      apply ltb_leb. eapply IH; eassumption.
Qed.

Lemma increasing_lt (temps : list num) :
  increasing temps = true ->
  forall i j a b, i < j ->
    nth_error temps i = Some a -> nth_error temps j = Some b ->
    ltb a b = true.
Proof.
  induction temps as [|a' temps IH]; intros Hinc i j a b Hij Hi Hj.
  - destruct i; discriminate.
  - destruct j as [|j]; [lia|]. cbn in Hj. destruct i as [|i]; cbn in Hi.
    + injection Hi as <-. eapply increasing_head; eassumption.
    + apply (IH ltac:(destruct temps; [reflexivity|];
                      cbn [increasing] in Hinc;
                      now apply andb_prop in Hinc) i j); [lia|assumption..].
Qed.

End Increasing.

Section ExactLinearity.

Local Open Scope Q_scope.

Lemma exact_leb (a b : Q) : leb a b = true <-> a <= b.
Proof. apply Qle_bool_iff. Qed.

Lemma exact_ltb (a b : Q) : ltb a b = true <-> a < b.
Proof. apply Qlt_bool_iff. Qed.

Lemma exact_eqb (a b : Q) : eqb a b = true <-> a == b.
Proof. apply Qeq_bool_iff. Qed.

(** On an increasing curve, at the point a fraction [t] of the way from
    the sample [k] to the sample [k + 1], the estimate is the same
    fraction of the way from [h1] to [h2]. *)
Lemma linearity_on_curve (c : Q) (data : curve Q) (k : nat)
    (t1 t2 e1 e2 t : Q) :
  curveOk data = true ->
  increasing (temperatures data) = true ->
  nth_error (temperatures data) k = Some t1 ->
  nth_error (temperatures data) (k + 1) = Some t2 ->
  nth_error (enthalpies data) k = Some e1 ->
  nth_error (enthalpies data) (k + 1) = Some e2 ->
  0 <= t <= 1 ->
  exists est,
    estimateOnCurve c data (t1 + (t2 - t1) * t) = Returns est
    /\ pressureUsed est = c
    /\ enthalpy est == e1 + t * (e2 - e1).
Proof.
  intros Hok Hinc Ht1 Ht2 He1 He2 [Ht0 Ht1'].
  set (T := t1 + (t2 - t1) * t).
  assert (H12 : t1 < t2).
  { apply exact_ltb. apply (increasing_lt _ Hinc k (k + 1)%nat); auto. lia. }
  assert (HT : t1 <= T <= t2) by (unfold T; split; nra).
  assert (Hk1 : (k + 1 < length (temperatures data))%nat)
    by (apply nth_error_Some; congruence).
  destruct (nth_error (temperatures data) 0) as [tmin|] eqn:Hmin;
    [|apply nth_error_None in Hmin; lia].
  destruct (nth_error (temperatures data) (length (temperatures data) - 1))
    as [tmax|] eqn:Hmax; [|apply nth_error_None in Hmax; lia].
  assert (Hlo : tmin <= t1).
  { destruct (Nat.eq_dec k 0) as [E | E].
    - rewrite E in Ht1. assert (tmin = t1) by congruence. subst. lra.
    - apply Qlt_le_weak, exact_ltb.
      apply (increasing_lt _ Hinc 0%nat k); auto. lia. }
  assert (Hhi : t2 <= tmax).
  { destruct (Nat.eq_dec (k + 1) (length (temperatures data) - 1)) as [E | E].
    - rewrite E in Ht2. assert (tmax = t2) by congruence. subst. lra.
    - apply Qlt_le_weak, exact_ltb.
      apply (increasing_lt _ Hinc (k + 1)%nat
               (length (temperatures data) - 1)%nat); auto. lia. }
  destruct (estimateOnCurve_in_range c data T tmin tmax Hok Hmin Hmax)
    as (ti & hi & Hti & Hhi' & Hle
        & [[Heq ->] | [Hne (ti1 & hi1 & Hti1 & Hhi1 & Hlt & ->)]]).
  { apply exact_leb. lra. }
  { apply exact_leb. lra. }
  - (* exact match: the sample is [t1] or [t2] *)
    apply exact_eqb in Heq. apply exact_leb in Hle.
    set (i := bracketIndex (temperatures data) T) in *.
    eexists. split; [reflexivity|]. split; [reflexivity|]. cbn [enthalpy].
    destruct (Nat.lt_total i k) as [Hik | [Hik | Hik]].
    + exfalso.
      pose proof (increasing_lt _ Hinc i k ti t1 Hik Hti Ht1) as Hlt.
      apply exact_ltb in Hlt. lra.
    + subst i. rewrite Hik in *.
      assert (ti = t1) by congruence. assert (hi = e1) by congruence. subst.
      assert (Hz : t == 0) by (unfold T in Heq; nra).
      rewrite Hz. ring.
    + destruct (Nat.eq_dec i (k + 1)) as [E | E].
      * rewrite E in *.
        assert (ti = t2) by congruence. assert (hi = e2) by congruence. subst.
        assert (Hz : t == 1) by (unfold T in Heq; nra).
        rewrite Hz. ring.
      * exfalso.
        assert (Hlt : ltb t2 ti = true)
          by (apply (increasing_lt _ Hinc (k + 1)%nat i); auto; lia).
        apply exact_ltb in Hlt. lra.
  - (* interpolation: the bracket is the one of [t1] and [t2] *)
    apply exact_leb in Hle. apply exact_ltb in Hlt.
    assert (Hne' : ~ ti == T).
    { intros E. apply exact_eqb in E. congruence. }
    set (i := bracketIndex (temperatures data) T) in *.
    eexists. split; [reflexivity|]. split; [reflexivity|]. cbn [enthalpy].
    assert (Hik : i = k).
    { destruct (Nat.lt_total i k) as [Hik | [Hik | Hik]]; [|assumption|];
        exfalso.
      - assert (Hle1 : ti1 <= t1).
        { destruct (Nat.eq_dec (i + 1) k) as [E | E].
          - rewrite E in Hti1. assert (ti1 = t1) by congruence. subst. lra.
          - apply Qlt_le_weak, exact_ltb.
            apply (increasing_lt _ Hinc (i + 1)%nat k); auto. lia. }
        lra.
      - assert (Hle2 : t2 <= ti).
        { destruct (Nat.eq_dec i (k + 1)) as [E | E].
          - rewrite E in Hti. assert (ti = t2) by congruence. subst. lra.
          - apply Qlt_le_weak, exact_ltb.
            apply (increasing_lt _ Hinc (k + 1)%nat i); auto. lia. }
        lra. }
    rewrite Hik in *.
    assert (ti = t1) by congruence. assert (hi = e1) by congruence.
    assert (ti1 = t2) by congruence. assert (hi1 = e2) by congruence. subst.
    unfold linearInterpolate.
    destruct (eqb t1 t2) eqn:E; [apply exact_eqb in E; lra|].
    cbn [add sub mul div Exact.number]. unfold T. field. lra.
Qed.

(** The repository's table in exact arithmetic: every request selects
    one of its five curves, each well formed and increasing. *)
Lemma exact_steam_lookup (p c : Q) (data : curve Q) :
  findClosestPressure steamTableData p = Some c ->
  lookup steamTableData c = Some data ->
  In (c, data) steamTableData.
Proof.
  intros Hc Hl. pose proof (closestOf_In _ _ _ Hc) as Hin.
  cbn in Hin.
  repeat (destruct Hin as [<- | Hin];
          [vm_compute in Hl; injection Hl as <-; vm_compute; tauto|]).
  contradiction.
Qed.

Lemma exact_steam_curves_ok (c : Q) (data : curve Q) :
  In (c, data) steamTableData ->
  curveOk data = true /\ increasing (temperatures data) = true.
Proof.
  intros Hin.
  repeat (destruct Hin as [[= <- <-] | Hin];
          [vm_compute; split; reflexivity|]).
  contradiction.
Qed.

(** On doubles the same point is off by rounding only: a quarter of the
    way from 250 to 300 on the 10 kg/cm2G curve, by less than 1e-9. *)
Example linearity_on_doubles :
  exists est : estimate float,
    calculateEnthalpy 262.5%float 10%float = Returns est
    /\ ltb (abs (sub (enthalpy est)
                     (lit 2957.2 + 0.25 * (lit 3051.2 - lit 2957.2))%float))
           (lit 0.000000001) = true.
Proof. eexists. split; vm_compute; reflexivity. Qed.

(** C7. For every bracket [(t1, t2, e1, e2)] of the curve a pressure
    selects and every [t] in [[0, 1]], the estimate at
    [t1 + (t2 - t1) * t] is [e1 + t * (e2 - e1)], exactly, in exact
    rational arithmetic. *)
Theorem interpolation_linear (p c : Q) (data : curve Q) (k : nat)
    (t1 t2 e1 e2 t : Q) :
  findClosestPressure steamTableData p = Some c ->
  lookup steamTableData c = Some data ->
  nth_error (temperatures data) k = Some t1 ->
  nth_error (temperatures data) (k + 1) = Some t2 ->
  nth_error (enthalpies data) k = Some e1 ->
  nth_error (enthalpies data) (k + 1) = Some e2 ->
  0 <= t <= 1 ->
  exists est,
    calculateEnthalpy (t1 + (t2 - t1) * t) p = Returns est
    /\ pressureUsed est = c
    /\ enthalpy est == e1 + t * (e2 - e1).
Proof.
  intros Hc Hl Ht1 Ht2 He1 He2 Ht.
  destruct (exact_steam_curves_ok c data (exact_steam_lookup _ _ _ Hc Hl))
    as (Hok & Hinc).
  unfold calculateEnthalpy, calculateEnthalpyOn. rewrite Hc, Hl.
  now apply (linearity_on_curve c data k).
Qed.

Lemma interpolation_linear_witness :
  exists est,
    calculateEnthalpy (250 + (300 - 250) * (1 # 4)) 10 = Returns est
    /\ pressureUsed est = 10
    /\ enthalpy est == 2957.2 + (1 # 4) * (3051.2 - 2957.2).
Proof.
  apply (interpolation_linear 10 10
           {| temperatures := [200; 250; 300; 350; 400; 450; 500; 550; 600];
              enthalpies := [2827.4; 2957.2; 3051.2; 3157.7; 3264.5;
                             3373.7; 3486.8; 3603.4; 3723.4] |}
           1%nat 250 300 2957.2 3051.2 (1 # 4));
    try reflexivity.
  split; discriminate.
Defined.

End ExactLinearity.

(** ** The guard of the interpolation *)

Lemma linearInterpolate_divisor {num : Type} `{JSNumber num}
    (x x1 x2 y1 y2 : num) :
  linearInterpolate x x1 x2 y1 y2
  = match divisorOf x1 x2 with
    | None => y1
    | Some d => add y1 (mul (div (sub x x1) d) (sub y2 y1))
    end.
Proof. unfold linearInterpolate, divisorOf. now destruct (eqb x1 x2). Qed.

(** The brackets of the table, on doubles: adjacent samples differ, and
    by a difference that is not zero. *)
Lemma steam_brackets_divisor (c : float) (data : curve float) (i : nat)
    (t1 t2 : float) :
  In (c, data) (steamTableData (num := float)) ->
  nth_error (temperatures data) i = Some t1 ->
  nth_error (temperatures data) (i + 1) = Some t2 ->
  exists d, divisorOf t1 t2 = Some d /\ eqb d (lit 0%Q) = false.
Proof.
  intros Hin H1 H2.
  repeat (destruct Hin as [[= <- <-] | Hin];
          [do 9 (destruct i as [|i];
                 [vm_compute in H1, H2; try discriminate;
                  injection H1 as <-; injection H2 as <-;
                  eexists; split; vm_compute; reflexivity|]);
           destruct i; discriminate|]).
  contradiction.
Qed.

(** C8. When the two bracketing temperatures are equal,
    [linearInterpolate] returns [y1] as it is and reaches no division.
    It is a total function; in exact arithmetic the divisor of a division
    it does reach is never zero, and neither is it, on doubles, for any
    bracket of the table. *)
Theorem interpolation_guard :
  (forall (num : Type) (N : JSNumber num) (x x1 x2 y1 y2 : num),
      eqb x1 x2 = true ->
      linearInterpolate x x1 x2 y1 y2 = y1 /\ divisorOf x1 x2 = None)
  /\ (forall (num : Type) (N : JSNumber num) (x x1 x2 y1 y2 : num),
        linearInterpolate x x1 x2 y1 y2
        = match divisorOf x1 x2 with
          | None => y1
          | Some d => add y1 (mul (div (sub x x1) d) (sub y2 y1))
          end)
  /\ (forall x1 x2 d : Q, divisorOf x1 x2 = Some d -> ~ (d == 0)%Q)
  /\ (forall (c : float) (data : curve float) (i : nat) (t1 t2 : float),
        In (c, data) (steamTableData (num := float)) ->
        nth_error (temperatures data) i = Some t1 ->
        nth_error (temperatures data) (i + 1) = Some t2 ->
        exists d, divisorOf t1 t2 = Some d /\ eqb d (lit 0%Q) = false).
Proof.
  split; [|split; [|split]].
  - intros num N x x1 x2 y1 y2 Heq.
    unfold linearInterpolate, divisorOf. now rewrite Heq.
  - intros. apply linearInterpolate_divisor.
  - intros x1 x2 d. unfold divisorOf.
    destruct (eqb x1 x2) eqn:E; [discriminate|]. intros [= <-] Hz.
    assert (Heq : eqb x1 x2 = true) by (apply exact_eqb; cbn in Hz; lra).
    congruence.
  - exact steam_brackets_divisor.
Qed.

Lemma interpolation_guard_witness :
  linearInterpolate 225%float 250%float 250%float 2957%float 3051%float
  = 2957%float
  /\ divisorOf 250%float 250%float = None.
Proof.
  apply (proj1 interpolation_guard float F64.number
           225%float 250%float 250%float 2957%float 3051%float).
  reflexivity.
Defined.

End SteamTheory.

(** * Properties of the history and of the air variant *)

Module HistoryTheory.

Import Spec.

Lemma lastN_length {A : Type} (n : nat) (l : list A) :
  length (lastN n l) = Nat.min (length l) n.
Proof. unfold lastN. rewrite length_skipn. lia. Qed.

Lemma skipn_S_tl {A : Type} (k : nat) (l : list A) :
  skipn (S k) l = tl (skipn k l).
Proof.
  revert l. induction k as [|k IH]; intros [|a l]; try reflexivity.
  cbn [skipn] in *. apply IH.
Qed.

(** Pushing an entry and shifting once when the bound is exceeded keeps
    the window on the most recent entries. *)
Lemma lastN_push {A : Type} (n : nat) (l : list A) (x : A) :
  1 <= n ->
  lastN n (l ++ [x])
  = if (n <? length (lastN n l ++ [x]))%nat
    then Air.shift (lastN n l ++ [x])
    else lastN n l ++ [x].
Proof.
  intros Hn. rewrite length_app, lastN_length. cbn [length].
  unfold lastN. rewrite length_app. cbn [length].
  destruct (Nat.ltb_spec n (Nat.min (length l) n + 1)) as [Hfull | Hroom].
  - assert (Hlen : n <= length l) by lia.
    replace (length l + 1 - n) with (S (length l - n)) by lia.
    rewrite skipn_app, skipn_S_tl.
    replace (S (length l - n) - length l) with 0 by lia.
    change (skipn 0 [x]) with [x].
    unfold Air.shift.
    destruct (skipn (length l - n) l) as [|y rest] eqn:E.
    + apply (f_equal (@length A)) in E. rewrite length_skipn in E.
      cbn in E. lia.
    + reflexivity.
  - replace (length l - n) with 0 by lia.
    replace (length l + 1 - n) with 0 by lia. reflexivity.
Qed.

Section AirWindow.

Context {num : Type} `{JSNumber num} {label : Type}.

(** After any recording, the four arrays hold the most recent
    [maxDataPoints] entries of it, in its order. *)
Lemma updateAll_window (qs : list (num * num * label)) :
  let s := Air.updateAll qs Air.initial in
  Air.enthalpyData s
  = lastN Air.maxDataPoints
      (map (fun q => Air.calculateEnthalpy (fst (fst q))) qs)
  /\ Air.temperatureDataPoints s
     = lastN Air.maxDataPoints (map (fun q => fst (fst q)) qs)
  /\ Air.pressureDataPoints s
     = lastN Air.maxDataPoints (map (fun q => snd (fst q)) qs)
  /\ Air.timeLabels s = lastN Air.maxDataPoints (map snd qs).
Proof.
  induction qs as [|[[temp pressure] timestamp] qs IH] using rev_ind.
  - repeat split.
  - cbv zeta in *. destruct IH as (He & Ht & Hp & Hl).
    unfold Air.updateAll in *. rewrite fold_left_app. cbn [fold_left fst snd].
    set (s := fold_left _ qs Air.initial) in *.
    unfold Air.updateChart. cbv zeta.
    rewrite !map_app. cbn [map fst snd].
    assert (Hmax : 1 <= Air.maxDataPoints) by (unfold Air.maxDataPoints; lia).
    cbn [Air.updateStats Air.enthalpyData Air.temperatureDataPoints
         Air.pressureDataPoints Air.timeLabels].
    rewrite He, Ht, Hp, Hl, !(lastN_push _ _ _ Hmax).
    rewrite !length_app, !lastN_length, !length_map.
    repeat split.
Qed.

End AirWindow.

Section SteamHistory.

Context {num : Type} `{JSNumber num}.

Lemma initializeChart_dataPoints (s : Steam.page num) :
  Steam.dataPoints (Steam.initializeChart s) = Steam.dataPoints s.
Proof. unfold Steam.initializeChart. now destruct (Steam.dataPoints s). Qed.

(** An accepted submission appends its entry to [dataPoints]; nothing is
    removed. *)
Lemma submit_accepted (T p : num) (s : Steam.page num) :
  accepted (T, p) = true ->
  exists s' est,
    Steam.calculateEnthalpy T p = Steam.Returns est
    /\ Steam.submit T p s = Some s'
    /\ Steam.dataPoints s'
       = Steam.dataPoints s
         ++ [ {| Steam.pt_temperature := T; Steam.pt_pressure := p;
                 Steam.pt_pressureUsed := Steam.pressureUsed est;
                 Steam.pt_enthalpy := Steam.enthalpy est;
                 Steam.pt_method := Steam.method est |} ].
Proof.
  unfold accepted. cbn [fst snd]. intros Hacc.
  apply andb_prop in Hacc as [Hacc Hret]. apply andb_prop in Hacc as [HT Hp].
  apply negb_true_iff in HT, Hp.
  destruct (Steam.calculateEnthalpy T p) as [est| |] eqn:Hcalc;
    try discriminate.
  unfold Steam.submit, Steam.validateInputs. rewrite HT, Hp. cbn [app].
  rewrite Hcalc. eexists. exists est. split; [reflexivity|].
  split; [reflexivity|].
  cbn [Steam.showNotification Steam.dataPoints].
  rewrite initializeChart_dataPoints. reflexivity.
Qed.

Lemma submitAll_accepted (qs : list (num * num)) (s : Steam.page num) :
  forallb accepted qs = true ->
  exists s' new,
    Steam.submitAll qs s = Some s'
    /\ Steam.dataPoints s' = Steam.dataPoints s ++ new
    /\ length new = length qs.
Proof.
  revert s. induction qs as [|[T p] qs IH]; intros s Hall.
  - exists s, []. now rewrite app_nil_r.
  - cbn [forallb] in Hall. apply andb_prop in Hall as [Hq Hall].
    destruct (submit_accepted T p s Hq) as (s1 & est & _ & Hs1 & Hd1).
    destruct (IH s1 Hall) as (s' & new & Hs' & Hd' & Hlen).
    cbn [Steam.submitAll]. rewrite Hs1.
    exists s'. eexists. split; [exact Hs'|].
    rewrite Hd', Hd1, <- app_assoc. split; [reflexivity|].
    cbn [app length]. now rewrite Hlen.
Qed.

End SteamHistory.

(** The claim of a bounded history, on the steam-table page: the
    [maxDataPoints + 5] entries of fifty-five accepted submissions are all
    kept. *)
Lemma steam_history_exceeds_bound :
  exists s : Steam.page float,
    Steam.submitAll (repeat (225%float, 10%float) (Air.maxDataPoints + 5))
      Steam.initial = Some s
    /\ length (Steam.dataPoints s) = Air.maxDataPoints + 5
    /\ length (Steam.dataPoints s) <> Air.maxDataPoints.
Proof.
  destruct (submitAll_accepted
              (repeat (225%float, 10%float) (Air.maxDataPoints + 5))
              Steam.initial) as (s & new & Hs & Hd & Hlen);
    [vm_compute; reflexivity|].
  exists s. split; [exact Hs|].
  rewrite Hd. cbn [Steam.initial Steam.dataPoints app].
  rewrite Hlen, repeat_length. cbn. split; [reflexivity | discriminate].
Qed.

(** C2, as the code has it.  In the air variant the history is bounded by
    [maxDataPoints] (50): after any recording from the empty history the
    four arrays hold its most recent [maxDataPoints] entries in their
    order, so [maxDataPoints] of them after [maxDataPoints + 5]
    recordings.  On the steam-table page [dataPoints] has no bound: every
    accepted submission appends an entry and none is removed. *)
Theorem history_window :
  (forall (num : Type) (N : JSNumber num) (label : Type)
          (qs : list (num * num * label)),
      let s := Air.updateAll qs Air.initial in
      (Air.enthalpyData s
       = lastN Air.maxDataPoints
           (map (fun q => Air.calculateEnthalpy (fst (fst q))) qs)
       /\ Air.temperatureDataPoints s
          = lastN Air.maxDataPoints (map (fun q => fst (fst q)) qs)
       /\ Air.pressureDataPoints s
          = lastN Air.maxDataPoints (map (fun q => snd (fst q)) qs)
       /\ Air.timeLabels s = lastN Air.maxDataPoints (map snd qs))
      /\ length (Air.enthalpyData s) = Nat.min (length qs) Air.maxDataPoints
      /\ (length qs = Air.maxDataPoints + 5 ->
          length (Air.enthalpyData s) = Air.maxDataPoints
          /\ Air.enthalpyData s
             = skipn 5 (map (fun q => Air.calculateEnthalpy (fst (fst q)))
                          qs)))
  /\ (forall (num : Type) (N : JSNumber num) (qs : list (num * num))
             (s : Steam.page num),
        forallb accepted qs = true ->
        exists s' new,
          Steam.submitAll qs s = Some s'
          /\ Steam.dataPoints s' = Steam.dataPoints s ++ new
          /\ length new = length qs).
Proof.
  split.
  - intros num N label qs s.
    pose proof (updateAll_window qs) as Hw. cbv zeta in Hw. fold s in Hw.
    split; [exact Hw|]. destruct Hw as (He & _).
    split.
    + rewrite He, lastN_length, length_map. reflexivity.
    + intros Hlen. rewrite He. unfold lastN. rewrite length_map, Hlen.
      split.
      * rewrite length_skipn, length_map, Hlen. cbn. reflexivity.
      * reflexivity.
  - intros num N qs s. apply submitAll_accepted.
Qed.

Lemma history_window_witness :
  exists s' new,
    Steam.submitAll [(225%float, 10%float); (300%float, 22%float)]
      Steam.initial = Some s'
    /\ Steam.dataPoints s' = Steam.dataPoints Steam.initial ++ new
    /\ length new = 2.
Proof.
  apply (proj2 history_window float F64.number
           [(225%float, 10%float); (300%float, 22%float)] Steam.initial).
  reflexivity.
Defined.

(** C9. After [resetForm] the history is empty and the statistics panel
    shows the count 0 and the no-data marker ['-'] for the average, on
    both pages; a second [resetForm] leaves the state the first one
    left. *)
Theorem reset_idempotent :
  (forall (num : Type) (N : JSNumber num) (s : Steam.page num),
      let r := Steam.resetForm s in
      Steam.dataPoints r = []
      /\ Steam.dataPointsText r = Steam.Count 0
      /\ Steam.avgEnthalpy r = Steam.Dash
      /\ Steam.updateStats r = r
      /\ Steam.resetForm r = r)
  /\ (forall (num : Type) (N : JSNumber num) (label : Type)
             (s : Air.page num label),
        let r := Air.resetForm s in
        Air.enthalpyData r = []
        /\ Air.temperatureDataPoints r = []
        /\ Air.pressureDataPoints r = []
        /\ Air.timeLabels r = []
        /\ Air.dataPoints r = Air.Count 0
        /\ Air.avgEnthalpy r = Air.Dash
        /\ Air.resetForm r = r).
Proof.
  split; intros; repeat split.
Qed.

End HistoryTheory.

(** * The air variant: the enthalpy does not depend on the pressure *)

Module AirTheory.

Import Spec.

Section Noninterference.

Context {num : Type} `{JSNumber num} {label : Type}.

Lemma submit_valid (T p : num) (ts : label) (s : Air.page num label) :
  Air.validateInput T = true -> Air.validateInput p = true ->
  Air.submit T p ts s
  = Air.showNotification
      (Air.EnthalpyMessage (div (Air.calculateEnthalpy T) (lit 1000%Q)))
      Air.success
      (Air.updateChart T p ts
         (Air.Build_page (Air.enthalpyData s) (Air.temperatureDataPoints s)
            (Air.pressureDataPoints s) (Air.timeLabels s) (Air.chart s)
            (Air.canvasShown s) false false (Air.currentEnthalpy s)
            (Air.avgEnthalpy s) (Air.dataPoints s) (Air.notification s))).
Proof.
  intros HT Hp. unfold Air.submit. rewrite HT, Hp. reflexivity.
Qed.

Lemma submit_pressure_independent (T p1 p2 : num) (ts : label)
    (s : Air.page num label) :
  Air.validateInput T = true ->
  Air.validateInput p1 = true -> Air.validateInput p2 = true ->
  withoutPressure (Air.submit T p1 ts s)
  = withoutPressure (Air.submit T p2 ts s).
Proof.
  intros HT H1 H2. rewrite !submit_valid by assumption. reflexivity.
Qed.

Lemma shift_push {A : Type} (l : list A) (x : A) :
  (Air.maxDataPoints <? length (l ++ [x])) = true ->
  Air.shift (l ++ [x]) = tl l ++ [x].
Proof.
  destruct l as [|a l]; [discriminate | reflexivity].
Qed.

Lemma submit_records_enthalpy (T p : num) (ts : label)
    (s : Air.page num label) :
  Air.validateInput T = true -> Air.validateInput p = true ->
  exists kept,
    Air.enthalpyData (Air.submit T p ts s)
    = kept ++ [Air.calculateEnthalpy T].
Proof.
  intros HT Hp. rewrite submit_valid by assumption.
  cbn [Air.showNotification Air.updateChart Air.updateStats Air.enthalpyData].
  destruct (Air.maxDataPoints <? _) eqn:E.
  - rewrite (shift_push _ _ E). eauto.
  - eauto.
Qed.

Lemma submit_records_pressure (T p : num) (ts : label)
    (s : Air.page num label) :
  Air.validateInput T = true -> Air.validateInput p = true ->
  length (Air.pressureDataPoints s) = length (Air.enthalpyData s) ->
  exists kept,
    Air.pressureDataPoints (Air.submit T p ts s) = kept ++ [p].
Proof.
  intros HT Hp Hlen. rewrite submit_valid by assumption.
  cbn [Air.showNotification Air.updateChart Air.updateStats
       Air.enthalpyData Air.pressureDataPoints].
  destruct (Air.maxDataPoints <? _) eqn:E.
  - rewrite shift_push; [eauto|].
    rewrite length_app in *. cbn [length] in *. now rewrite Hlen.
  - eauto.
Qed.

End Noninterference.

(** *** The formula, on doubles and in exact arithmetic

    The code adds the product with the negative literal [c]; written with
    a subtraction of the positive literal it is the same number, because
    rounding on doubles is symmetric in the sign. *)

Lemma SFadd_opp (x y : spec_float) :
  SFadd prec emax x (SFopp y) = SFsub prec emax x y.
Proof.
  destruct x as [sx|sx| |sx mx ex], y as [sy|sy| |sy my ey]; simpl;
    try reflexivity;
    try (destruct sx, sy; reflexivity).
Qed.

Lemma binary_round_aux_opp (s : bool) (m e : Z) (l : location) :
  binary_round_aux prec emax (negb s) m e l
  = SFopp (binary_round_aux prec emax s m e l).
Proof.
  unfold binary_round_aux.
  destruct (shr_fexp prec emax m e l) as [mrs e'].
  destruct (shr_fexp prec emax _ e' loc_Exact) as [mrs' e''].
  destruct (shr_m mrs'); try reflexivity.
  destruct (Z.leb _ _); reflexivity.
Qed.

Lemma SFmul_opp (x y : spec_float) :
  SFmul prec emax (SFopp x) y = SFopp (SFmul prec emax x y).
Proof.
  destruct x as [sx|sx| |sx mx ex], y as [sy|sy| |sy my ey]; simpl;
    try reflexivity;
    try (destruct sx, sy; reflexivity).
  rewrite <- binary_round_aux_opp. f_equal. now destruct sx, sy.
Qed.

Lemma double_add_opp (x y : float) : (x + - y = x - y)%float.
Proof.
  apply Prim2SF_inj. rewrite add_spec, sub_spec, opp_spec. apply SFadd_opp.
Qed.

Lemma double_mul_opp (x y : float) : (- x * y = - (x * y))%float.
Proof.
  apply Prim2SF_inj. rewrite mul_spec, !opp_spec, mul_spec. apply SFmul_opp.
Qed.

Lemma calculateEnthalpy_double (T : float) :
  Air.calculateEnthalpy T
  = ((lit 1003.5%Q + lit 0.1%Q * T - lit 0.00002%Q * T * T) * T)%float.
Proof.
  unfold Air.calculateEnthalpy, Air.cpDryAir. cbv zeta.
  cbn [add mul F64.number].
  replace (lit (-0.00002)%Q) with (- lit 0.00002%Q)%float
    by (vm_compute; reflexivity).
  rewrite !double_mul_opp, double_add_opp. reflexivity.
Qed.

Lemma calculateEnthalpy_exact (T : Q) :
  (Air.calculateEnthalpy T == (1003.5 + 0.1 * T - 0.00002 * T * T) * T)%Q.
Proof.
  unfold Air.calculateEnthalpy, Air.cpDryAir. cbn. ring.
Qed.

(** C10. In the air variant two valid submissions of one temperature
    with any two pressures leave the same state but for the array the
    pressure is kept in; the enthalpy recorded is
    [(1003.5 + 0.1 * T - 0.00002 * T * T) * T], as doubles and in exact
    arithmetic, and the pressure is only appended to
    [pressureDataPoints]. *)
Theorem air_enthalpy_ignores_pressure :
  (forall (num : Type) (N : JSNumber num) (label : Type)
          (T p1 p2 : num) (ts : label) (s : Air.page num label),
      Air.validateInput T = true ->
      Air.validateInput p1 = true -> Air.validateInput p2 = true ->
      withoutPressure (Air.submit T p1 ts s)
      = withoutPressure (Air.submit T p2 ts s)
      /\ (exists kept,
            Air.enthalpyData (Air.submit T p1 ts s)
            = kept ++ [Air.calculateEnthalpy T])
      /\ (length (Air.pressureDataPoints s) = length (Air.enthalpyData s) ->
          exists kept,
            Air.pressureDataPoints (Air.submit T p1 ts s) = kept ++ [p1]))
  /\ (forall T : float,
        Air.calculateEnthalpy T
        = ((lit 1003.5%Q + lit 0.1%Q * T - lit 0.00002%Q * T * T) * T)%float)
  /\ (forall T : Q,
        (Air.calculateEnthalpy T
         == (1003.5 + 0.1 * T - 0.00002 * T * T) * T)%Q).
Proof.
  split; [|split].
  - intros num N label T p1 p2 ts s HT H1 H2. split; [|split].
    + now apply submit_pressure_independent.
    + now apply submit_records_enthalpy.
    + intros Hlen. now apply submit_records_pressure.
  - exact calculateEnthalpy_double.
  - exact calculateEnthalpy_exact.
Qed.

Lemma air_enthalpy_ignores_pressure_witness :
  withoutPressure
    (Air.submit 300%float 101325%float tt (Air.initial (num := float) (label := unit)))
  = withoutPressure
      (Air.submit 300%float 200000%float tt (Air.initial (num := float) (label := unit)))
  /\ (exists kept,
        Air.enthalpyData
          (Air.submit 300%float 101325%float tt (Air.initial (num := float) (label := unit)))
        = kept ++ [Air.calculateEnthalpy 300%float])
  /\ (length (Air.pressureDataPoints (Air.initial (num := float) (label := unit)))
      = length (Air.enthalpyData (Air.initial (num := float) (label := unit)))
      -> exists kept,
          Air.pressureDataPoints
            (Air.submit 300%float 101325%float tt
               (Air.initial (num := float) (label := unit)))
          = kept ++ [101325%float]).
Proof.
  apply (proj1 air_enthalpy_ignores_pressure float F64.number unit
           300%float 101325%float 200000%float tt Air.initial);
    reflexivity.
Defined.

End AirTheory.

(** * More on the estimator, on doubles *)

Module EstimatorFacts.

Import Steam Spec NumberTheory SteamTheory.

(** X1. Whatever the pressure (negative, infinite, NaN), the selection
    gives one of the five levels of the table, and the curve of that level
    is there, with seven samples or more and an enthalpy for each. *)
Theorem pressure_selection_total (p : float) :
  exists c data,
    findClosestPressure steamTableData p = Some c
    /\ In c [10; 20; 30; 50; 90]%float
    /\ lookup steamTableData c = Some data
    /\ 7 <= length (temperatures data)
    /\ length (enthalpies data) = length (temperatures data).
Proof.
  destruct (steam_selected p) as (c & data & Hc & Hl & Hin).
  exists c, data. split; [exact Hc|]. split.
  - rewrite <- steam_levels. now apply closestOf_In with (target := p).
  - split; [exact Hl|]. now destruct (steam_curves_ok c data Hin) as (_ & ? & ?).
Qed.

(** X2. The level a request selected selects itself: asking again with
    [pressureUsed] in place of the pressure gives the same outcome. *)
Theorem pressure_used_is_fixed (T p c : float) :
  findClosestPressure steamTableData p = Some c ->
  findClosestPressure steamTableData c = Some c
  /\ calculateEnthalpy T c = calculateEnthalpy T p.
Proof.
  intros Hc.
  assert (Hcc : findClosestPressure steamTableData c = Some c).
  { pose proof (closestOf_In _ _ _ Hc) as Hin. rewrite steam_levels in Hin.
    simpl in Hin.
    repeat (destruct Hin as [<- | Hin]; [vm_compute; reflexivity|]).
    contradiction. }
  split; [exact Hcc|].
  unfold calculateEnthalpy, calculateEnthalpyOn. now rewrite Hc, Hcc.
Qed.

Lemma pressure_used_is_fixed_witness :
  findClosestPressure steamTableData 20%float = Some 20%float
  /\ calculateEnthalpy 225%float 20%float = calculateEnthalpy 225%float 24%float.
Proof.
  apply (pressure_used_is_fixed 225%float 24%float 20%float). reflexivity.
Defined.

(** X3. The range check does not stop NaN: for every pressure
    [calculateEnthalpy(NaN, p)] returns an [interpolated] estimate whose
    enthalpy is NaN, between the first two samples of the curve.  It is
    the validation of the submit handler that stops it, and then nothing
    is recorded. *)
Theorem nan_temperature_not_caught (p : float) :
  (exists est b t0 t1,
      calculateEnthalpy nan p = Returns est
      /\ method est = interpolated
      /\ isNaN (enthalpy est) = true
      /\ interpolationData est = Some b
      /\ findClosestPressure steamTableData p = Some (pressureUsed est)
      /\ (exists data,
            lookup steamTableData (pressureUsed est) = Some data
            /\ nth_error (temperatures data) 0 = Some t0
            /\ nth_error (temperatures data) 1 = Some t1)
      /\ T1 b = t0 /\ T2 b = t1)
  /\ forall s : page float,
       exists s',
         submit nan p s = Some s'
         /\ dataPoints s' = dataPoints s
         /\ tempError s' = true
         /\ exists errors, notification s' = Some (ValidationFailed errors, error).
Proof.
  split.
  - destruct (steam_selected p) as (c & data & Hc & Hl & Hin).
    unfold calculateEnthalpy, calculateEnthalpyOn. rewrite Hc, Hl.
    repeat (destruct Hin as [[= <- <-] | Hin];
            [do 4 eexists; split; [vm_compute; reflexivity|];
             cbn [method enthalpy interpolationData pressureUsed T1 T2];
             split; [reflexivity|]; split; [vm_compute; reflexivity|];
             split; [reflexivity|]; split; [reflexivity|];
             split; [eexists; split; [vm_compute; reflexivity|];
                     split; vm_compute; reflexivity|];
             split; vm_compute; reflexivity|]).
    contradiction.
  - intros s. unfold submit, validateInputs.
    replace (isNaN nan) with true by (vm_compute; reflexivity).
    cbn [orb app]. destruct (isNaN p || ltb p (lit 0%Q));
      eexists; (split; [reflexivity|]); cbn; repeat split; eauto.
Qed.

(** X4. The ranges of the five curves put together: below 200 or above
    600 every pressure is refused with the error of its curve, and from
    303 to 600 every pressure is served. *)
Theorem temperature_range_at_every_level (T p : float) :
  (ltb T 200%float = true \/ ltb 600%float T = true ->
   exists e, calculateEnthalpy T p = Throws e /\ requested e = T)
  /\ (leb 303%float T = true -> leb T 600%float = true ->
      exists est, calculateEnthalpy T p = Returns est).
Proof.
  destruct (steam_selected p) as (c & data & Hc & Hl & Hin).
  unfold calculateEnthalpy, calculateEnthalpyOn. rewrite Hc, Hl.
  split.
  - intros Hout.
    repeat (destruct Hin as [[= <- <-] | Hin];
            [eexists; split;
             [apply estimateOnCurve_out_of_range;
              [vm_compute; reflexivity | vm_compute; reflexivity|];
              destruct Hout as [Hlow | Hhigh];
              [left; eapply ltb_leb_trans; [exact Hlow|];
               vm_compute; reflexivity
              |right; exact Hhigh]
             |reflexivity]|]).
    contradiction.
  - intros Hlo Hhi.
    assert (Hok : curveOk data = true)
      by now destruct (steam_curves_ok c data Hin).
    assert (Hends : exists tmin,
               nth_error (temperatures data) 0 = Some tmin
               /\ nth_error (temperatures data)
                    (length (temperatures data) - 1) = Some 600%float
               /\ leb tmin 303%float = true).
    { repeat (destruct Hin as [[= <- <-] | Hin];
              [eexists; repeat split; vm_compute; reflexivity|]).
      contradiction. }
    destruct Hends as (tmin & Hmin & Hmax & Hle).
    destruct (estimateOnCurve_in_range c data T tmin 600%float Hok Hmin Hmax)
      as (ti & hi & _ & _ & _ & [[_ ->] | [_ (ti1 & hi1 & _ & _ & _ & ->)]]);
      eauto.
    eapply leb_trans; eassumption.
Qed.

Lemma temperature_range_at_every_level_witness :
  exists est, calculateEnthalpy 303%float 90%float = Returns est.
Proof.
  apply (proj2 (temperature_range_at_every_level 303%float 90%float));
    reflexivity.
Defined.

(** X5. No call reads outside the arrays of the table, whatever the two
    numbers: [calculateEnthalpy] returns or throws, a submission always
    ends in a page, and so does every sequence of submissions and
    resets. *)
Theorem session_never_reads_undefined :
  (forall T p : float, calculateEnthalpy T p <> ReadsUndefined)
  /\ (forall (events : list (Session.event float)) (s : page float),
        exists s', Session.run events s = Some s').
Proof.
  split; [exact calculateEnthalpy_defined|].
  induction events as [|e events IH]; intros s; cbn [Session.run].
  - eauto.
  - destruct e as [T p|]; cbn [Session.step].
    + destruct (submit_defined T p s) as (s' & ->). apply IH.
    + apply IH.
Qed.

End EstimatorFacts.

(** * The steam-table page over a session *)

Module PageFacts.

Import Steam Spec NumberTheory Session.

Section AnyNumber.

Context {num : Type} `{JSNumber num}.

(** What one submission does to [dataPoints]: an accepted one appends
    its entry, any other leaves the array alone. *)
Lemma submit_dataPoints (T p : num) (s s' : page num) :
  submit T p s = Some s' ->
  if accepted (T, p)
  then exists point,
         dataPoints s' = dataPoints s ++ [point]
         /\ queryOf point = (T, p) /\ faithful point
  else dataPoints s' = dataPoints s.
Proof.
  unfold submit, validateInputs, accepted. cbn [fst snd].
  destruct (isNaN T || ltb T (lit 0%Q)), (isNaN p || ltb p (lit 0%Q));
    cbn [app negb andb]; try (intros [= <-]; reflexivity).
  destruct (calculateEnthalpy T p) as [est| |] eqn:Hcalc.
  - intros [= <-].
    cbn [showNotification dataPoints].
    rewrite HistoryTheory.initializeChart_dataPoints.
    cbn [updateStats recordResult dataPoints].
    eexists. split; [reflexivity|]. split; [reflexivity|].
    exists est.
    cbn [pt_temperature pt_pressure pt_pressureUsed pt_enthalpy pt_method].
    repeat split. exact Hcalc.
  - intros [= <-]. reflexivity.
  - discriminate.
Qed.

Lemma run_history (events : list (event num)) :
  forall s s' : page num,
    run events s = Some s' ->
    Forall faithful (dataPoints s) ->
    map queryOf (dataPoints s')
    = sinceReset events (map queryOf (dataPoints s))
    /\ Forall faithful (dataPoints s').
Proof.
  induction events as [|[T p|] events IH]; intros s s' Hrun Hs;
    cbn [run step sinceReset] in *.
  - injection Hrun as <-. now split.
  - destruct (submit T p s) as [s1|] eqn:Hsub; [|discriminate].
    pose proof (submit_dataPoints T p s s1 Hsub) as Hd.
    destruct (accepted (T, p)).
    + destruct Hd as (point & Hd & Hq & Hf).
      destruct (IH s1 s' Hrun) as (Hm & Hall).
      * rewrite Hd. apply Forall_app. split; [exact Hs | now constructor].
      * rewrite Hm, Hd, map_app. cbn [map]. rewrite Hq. now split.
    + destruct (IH s1 s' Hrun) as (Hm & Hall); [now rewrite Hd|].
      rewrite Hm, Hd. now split.
  - destruct (IH (resetForm s) s' Hrun) as (Hm & Hall); [constructor|].
    now split.
Qed.

(** X6. After any sequence of submissions and resets from the loaded
    page, [dataPoints] holds, in their order, exactly the submissions
    since the last reset that passed the validation and got an estimate,
    and each entry carries the estimate of its own temperature and
    pressure. *)
Theorem history_is_accepted_since_reset (events : list (event num))
    (s : page num) :
  run events initial = Some s ->
  map queryOf (dataPoints s) = sinceReset events []
  /\ Forall faithful (dataPoints s).
Proof.
  intros Hrun. apply (run_history events initial s Hrun). constructor.
Qed.


Lemma inSync_refreshed (s : page num) (m : message num) (k : kind) :
  inSync (showNotification m k (initializeChart (updateStats s))).
Proof.
  destruct s as [dp ch cv cur te pe dpt avg n].
  destruct dp; split; reflexivity.
Qed.

Lemma inSync_flags (s : page num) (te pe : bool)
    (n : option (message num * kind)) :
  inSync s ->
  inSync {| dataPoints := dataPoints s; enthalpyChart := enthalpyChart s;
            canvasShown := canvasShown s;
            currentEnthalpy := currentEnthalpy s;
            tempError := te; pressError := pe;
            dataPointsText := dataPointsText s;
            avgEnthalpy := avgEnthalpy s; notification := n |}.
Proof.
  intros [H1 H2].
  pose proof (f_equal dataPointsText H1) as Hd.
  pose proof (f_equal avgEnthalpy H1) as Ha.
  pose proof (f_equal canvasShown H2) as Hc.
  pose proof (f_equal enthalpyChart H2) as He.
  destruct s as [dp ch cv cur te0 pe0 dpt avg n0].
  unfold inSync, updateStats, initializeChart in *. cbn in *.
  rewrite Hd, Ha. split; [reflexivity|].
  destruct dp; cbn in *; rewrite Hc; rewrite ?He; reflexivity.
Qed.

Lemma step_inSync (e : event num) (s s' : page num) :
  inSync s -> step e s = Some s' -> inSync s'.
Proof.
  intros Hs. destruct e as [T p|]; cbn [step].
  - unfold submit, validateInputs.
    destruct ((if isNaN T || ltb T (lit 0%Q) then [TemperatureInvalid] else [])
              ++ (if isNaN p || ltb p (lit 0%Q) then [PressureInvalid] else []))
      as [|e errors].
    + destruct (calculateEnthalpy T p) as [est| |]; [| |discriminate];
        intros [= <-].
      * apply inSync_refreshed.
      * unfold showNotification. cbn. now apply inSync_flags.
    + intros [= <-]. unfold showNotification. cbn. now apply inSync_flags.
  - intros [= <-]. apply inSync_refreshed.
Qed.

Lemma run_inSync (events : list (event num)) :
  forall s s' : page num, inSync s -> run events s = Some s' -> inSync s'.
Proof.
  induction events as [|e events IH]; intros s s' Hs; cbn [run].
  - now intros [= <-].
  - destruct (step e s) as [s1|] eqn:He; [|discriminate].
    apply IH. now apply (step_inSync e s).
Qed.

(** X7. At every moment of a session the statistics panel and the chart
    agree with [dataPoints]: a call of [updateStats] or of
    [initializeChart] would change nothing; the count shown is the length
    of the array, the canvas is shown exactly when there is an entry, and
    the chart then plots the enthalpies of the entries in their order. *)
Theorem panel_and_chart_follow_history (events : list (event num))
    (s : page num) :
  run events initial = Some s ->
  updateStats s = s
  /\ initializeChart s = s
  /\ dataPointsText s = Count (length (dataPoints s))
  /\ canvasShown s = negb (Nat.eqb (length (dataPoints s)) 0)
  /\ (dataPoints s <> [] ->
      enthalpyChart s = Some (map pt_enthalpy (dataPoints s))).
Proof.
  intros Hrun.
  assert (Hs : inSync s).
  { apply (run_inSync events initial s); [|exact Hrun]. split; reflexivity. }
  destruct Hs as [H1 H2]. split; [exact H1|]. split; [exact H2|].
  pose proof (f_equal dataPointsText H1) as Hd.
  pose proof (f_equal canvasShown H2) as Hc.
  pose proof (f_equal enthalpyChart H2) as He.
  destruct s as [dp ch cv cur te pe dpt avg n].
  unfold updateStats, initializeChart in *. cbn in *.
  split; [now rewrite <- Hd|].
  destruct dp; cbn in *.
  - split; [now rewrite <- Hc | congruence].
  - split; [now rewrite <- Hc | now rewrite <- He].
Qed.


End AnyNumber.

Lemma history_is_accepted_since_reset_witness :
  exists s : page float,
    run [Submit 225%float 10%float; Submit 100%float 10%float; Reset;
         Submit 300%float 22%float; Submit (-1)%float 22%float] initial
    = Some s
    /\ map queryOf (dataPoints s) = [(300%float, 22%float)]
    /\ Forall faithful (dataPoints s).
Proof.
  eexists. split; [vm_compute; reflexivity|].
  match goal with
  | |- context [Forall faithful (dataPoints ?s)] =>
      destruct (@history_is_accepted_since_reset float F64.number
                  [Submit 225%float 10%float; Submit 100%float 10%float;
                   Reset; Submit 300%float 22%float;
                   Submit (-1)%float 22%float] s
                  ltac:(vm_compute; reflexivity)) as [W1 W2]
  end.
  split; [|exact W2]. rewrite W1. vm_compute. reflexivity.
Defined.

Lemma panel_and_chart_follow_history_witness :
  exists s : page float,
    run [Submit 225%float 10%float; Reset; Submit 300%float 22%float] initial
    = Some s
    /\ updateStats s = s
    /\ initializeChart s = s
    /\ dataPointsText s = Count (length (dataPoints s))
    /\ canvasShown s = negb (Nat.eqb (length (dataPoints s)) 0)
    /\ (dataPoints s <> [] ->
        enthalpyChart s = Some (map pt_enthalpy (dataPoints s))).
Proof.
  eexists. split; [vm_compute; reflexivity|].
  match goal with
  | |- context [updateStats ?s] =>
      exact (@panel_and_chart_follow_history float F64.number
               [Submit 225%float 10%float; Reset; Submit 300%float 22%float]
               s ltac:(vm_compute; reflexivity))
  end.
Defined.

Section Validation.

Context {num : Type} `{JSNumber num} {O : JSOrder num}.

Hypothesis zero_is_a_number : eqb (lit 0%Q) (lit 0%Q) = true.

Lemma negative_or_nan (x : num) :
  isNaN x || ltb x (lit 0%Q) = negb (leb (lit 0%Q) x).
Proof.
  unfold isNaN. destruct (leb (lit 0%Q) x) eqn:Hle; cbn [negb].
  - destruct (leb_defined _ _ Hle) as [_ ->]. cbn [negb orb].
    destruct (ltb x (lit 0%Q)) eqn:Hlt; [|reflexivity].
    apply ltb_not_leb in Hlt. congruence.
  - destruct (eqb x x) eqn:Hx; cbn [negb orb]; [|reflexivity].
    now apply leb_total.
Qed.

Lemma not_positive_or_nan (x : num) :
  isNaN x || leb x (lit 0%Q) = negb (ltb (lit 0%Q) x).
Proof.
  unfold isNaN. destruct (ltb (lit 0%Q) x) eqn:Hlt; cbn [negb].
  - rewrite (ltb_not_leb _ _ Hlt).
    destruct (leb_defined _ _ (ltb_leb _ _ Hlt)) as [_ ->]. reflexivity.
  - destruct (eqb x x) eqn:Hx; cbn [negb orb]; [|reflexivity].
    destruct (leb x (lit 0%Q)) eqn:Hle; [reflexivity|].
    apply leb_total in Hle; congruence.
Qed.

End Validation.

(** X8. What the two validations let through, on doubles.  The
    steam-table page accepts a submission exactly when [0 <= temperature]
    and [0 <= pressure], so zero passes (and NaN does not); the air page
    accepts a value exactly when [0 < value], so zero does not pass. *)
Theorem validation_boundaries :
  (forall (T p : float) (s : page float),
      fst (validateInputs T p s) = []
      <-> leb (lit 0%Q) T = true /\ leb (lit 0%Q) p = true)
  /\ (forall v : float, Air.validateInput v = ltb (lit 0%Q) v).
Proof.
  assert (Hz : eqb (lit (num := float) 0%Q) (lit 0%Q) = true)
    by (vm_compute; reflexivity).
  split.
  - intros T p s. unfold validateInputs. cbn [fst].
    rewrite !(negative_or_nan Hz).
    destruct (leb (lit 0%Q) T), (leb (lit 0%Q) p); cbn;
      split; try tauto; try discriminate; intros [? ?]; discriminate.
  - intros v. unfold Air.validateInput.
    rewrite (not_positive_or_nan Hz). apply negb_involutive.
Qed.

End PageFacts.

(** * More on the estimator: brackets on doubles, then exact arithmetic *)

Module ExactFacts.

Import Steam Spec NumberTheory SteamTheory.

(** What a returned estimate tells of the run that made it. *)
Lemma estimateOnCurve_returns {num : Type} `{JSNumber num}
    (c : num) (data : curve num) (T : num) (est : estimate num) :
  estimateOnCurve c data T = Returns est ->
  exists tmin tmax ti hi,
    nth_error (temperatures data) 0 = Some tmin
    /\ nth_error (temperatures data) (length (temperatures data) - 1)
       = Some tmax
    /\ ltb T tmin = false /\ ltb tmax T = false
    /\ nth_error (temperatures data) (bracketIndex (temperatures data) T)
       = Some ti
    /\ nth_error (enthalpies data) (bracketIndex (temperatures data) T)
       = Some hi
    /\ ((eqb ti T = true
         /\ est = {| enthalpy := hi; pressureUsed := c; method := exact;
                     interpolationData := None |})
        \/ (eqb ti T = false
            /\ exists ti1 hi1,
                nth_error (temperatures data)
                  (bracketIndex (temperatures data) T + 1) = Some ti1
                /\ nth_error (enthalpies data)
                     (bracketIndex (temperatures data) T + 1) = Some hi1
                /\ est = {| enthalpy := linearInterpolate T ti ti1 hi hi1;
                            pressureUsed := c; method := interpolated;
                            interpolationData :=
                              Some {| T1 := ti; T2 := ti1;
                                      h1 := hi; h2 := hi1 |} |})).
Proof.
  unfold estimateOnCurve. cbv zeta.
  destruct (nth_error (temperatures data) 0) as [tmin|]; [|discriminate].
  destruct (nth_error (temperatures data) (length (temperatures data) - 1))
    as [tmax|]; [|discriminate].
  destruct (ltb T tmin || gtb T tmax) eqn:Hrange; [discriminate|].
  apply orb_false_elim in Hrange as [Hlo Hhi]. unfold gtb in Hhi.
  destruct (nth_error (temperatures data) _) as [ti|]; [|discriminate].
  destruct (nth_error (enthalpies data) _) as [hi|]; [|discriminate].
  destruct (eqb ti T) eqn:Heq.
  - intros [= <-]. exists tmin, tmax, ti, hi. repeat split; auto.
  - destruct (nth_error (temperatures data) _) as [ti1|]; [|discriminate].
    destruct (nth_error (enthalpies data) _) as [hi1|]; [|discriminate].
    intros [= <-]. exists tmin, tmax, ti, hi. repeat split; auto.
    right. split; [exact Heq|]. exists ti1, hi1. auto.
Qed.

(** *** Brackets on doubles *)

Section Strict.

Context {num : Type} `{JSNumber num} {O : JSOrder num}.

Lemma not_ltb_leb (a b : num) :
  eqb a a = true -> eqb b b = true -> ltb a b = false -> leb b a = true.
Proof.
  intros Ha Hb Hlt. destruct (leb b a) eqn:E; [reflexivity|].
  pose proof (leb_total b a Hb Ha E). congruence.
Qed.

Lemma leb_neq_ltb (a b : num) :
  leb a b = true -> eqb a b = false -> ltb a b = true.
Proof.
  intros Hle Hne. destruct (ltb a b) eqn:E; [reflexivity|].
  pose proof (leb_ltb_eqb a b Hle E). congruence.
Qed.

(** The bracket of a returned estimate for a temperature that is a
    number, on a curve with no NaN among its temperatures: strictly
    around the temperature. *)
Lemma strict_bracket (c : num) (data : curve num) (T : num)
    (est : estimate num) (b : bracket num) :
  curveOk data = true ->
  eqb T T = true ->
  estimateOnCurve c data T = Returns est ->
  interpolationData est = Some b ->
  let i := bracketIndex (temperatures data) T in
  est = {| enthalpy := linearInterpolate T (T1 b) (T2 b) (h1 b) (h2 b);
           pressureUsed := c; method := interpolated;
           interpolationData := Some b |}
  /\ ltb (T1 b) T = true /\ ltb T (T2 b) = true
  /\ nth_error (temperatures data) i = Some (T1 b)
  /\ nth_error (temperatures data) (i + 1) = Some (T2 b)
  /\ nth_error (enthalpies data) i = Some (h1 b)
  /\ nth_error (enthalpies data) (i + 1) = Some (h2 b).
Proof.
  intros Hok HT Hret Hb i.
  unfold curveOk in Hok. apply andb_prop in Hok as [_ Hnan].
  rewrite forallb_forall in Hnan.
  destruct (estimateOnCurve_returns c data T est Hret)
    as (tmin & tmax & ti & hi & Hmin & Hmax & Hlo & Hhi & Hti & Hhi'
        & [[_ ->] | [Hne (ti1 & hi1 & Hti1 & Hhi1 & ->)]]);
    [discriminate|].
  cbn [interpolationData] in Hb. injection Hb as <-. cbn [T1 T2 h1 h2].
  fold i in Hti, Hhi', Hti1, Hhi1.
  destruct (bracketIndex_spec (temperatures data) T) as (Hr & Hstep & Hexit).
  fold i in Hr, Hstep, Hexit.
  assert (Hle : leb ti T = true).
  { destruct (Nat.eq_dec i 0) as [E | E].
    - rewrite E in Hti. assert (ti = tmin) by congruence. subst ti.
      apply not_ltb_leb; auto. apply Hnan. eapply nth_error_In, Hmin.
    - destruct (Hstep i) as (t & Ht & Hle); [lia|].
      assert (t = ti) by congruence. now subst. }
  assert (Hlt : ltb T ti1 = true).
  { assert (Hi : i < length (temperatures data) - 1).
    { assert (i + 1 < length (temperatures data))
        by (apply nth_error_Some; congruence). lia. }
    destruct (Hexit Hi) as (t & Ht & Hgt).
    assert (t = ti1) by congruence. subst t.
    apply leb_total; auto. apply Hnan. eapply nth_error_In, Hti1. }
  repeat split; auto. now apply leb_neq_ltb.
Qed.

End Strict.

(** X9. On doubles, for a temperature that is a number: an estimate that
    reports a bracket is [interpolated], the bracket is a pair of
    adjacent samples of the curve of the level used, the temperature
    lies strictly between its two temperatures, and the enthalpy is
    [linearInterpolate] at that bracket. *)
Theorem interpolated_within_bracket (T p : float) (est : estimate float)
    (b : bracket float) :
  isNaN T = false ->
  calculateEnthalpy T p = Returns est ->
  interpolationData est = Some b ->
  method est = interpolated
  /\ ltb (T1 b) T = true /\ ltb T (T2 b) = true
  /\ enthalpy est = linearInterpolate T (T1 b) (T2 b) (h1 b) (h2 b)
  /\ exists data i,
       lookup steamTableData (pressureUsed est) = Some data
       /\ findClosestPressure steamTableData p = Some (pressureUsed est)
       /\ nth_error (temperatures data) i = Some (T1 b)
       /\ nth_error (temperatures data) (i + 1) = Some (T2 b)
       /\ nth_error (enthalpies data) i = Some (h1 b)
       /\ nth_error (enthalpies data) (i + 1) = Some (h2 b).
Proof.
  intros HT. apply negb_false_iff in HT.
  unfold calculateEnthalpy, calculateEnthalpyOn.
  destruct (findClosestPressure steamTableData p) as [c|] eqn:Hc;
    [|discriminate].
  destruct (lookup steamTableData c) as [data|] eqn:Hl; [|discriminate].
  intros Hret Hb.
  destruct (steam_curves_ok c data (steam_lookup _ _ _ Hc Hl)) as (Hok & _).
  destruct (strict_bracket c data T est b Hok HT Hret Hb)
    as (-> & H1 & H2 & Ht1 & Ht2 & Hh1 & Hh2).
  cbn [method enthalpy pressureUsed].
  repeat split; auto.
  exists data, (bracketIndex (temperatures data) T).
  repeat split; auto.
Qed.

Lemma interpolated_within_bracket_witness :
  interpolated = interpolated
  /\ ltb 200%float 225%float = true /\ ltb 225%float 250%float = true
  /\ linearInterpolate 225%float 200%float 250%float
       (lit 2827.4%Q) (lit 2957.2%Q)
     = linearInterpolate 225%float 200%float 250%float
         (lit 2827.4%Q) (lit 2957.2%Q)
  /\ exists data i,
       lookup steamTableData 10%float = Some data
       /\ findClosestPressure steamTableData 10%float = Some 10%float
       /\ nth_error (temperatures data) i = Some 200%float
       /\ nth_error (temperatures data) (i + 1) = Some 250%float
       /\ nth_error (enthalpies data) i = Some (lit 2827.4%Q)
       /\ nth_error (enthalpies data) (i + 1) = Some (lit 2957.2%Q).
Proof.
  apply (interpolated_within_bracket 225%float 10%float
           {| enthalpy :=
                linearInterpolate 225%float 200%float 250%float
                  (lit 2827.4%Q) (lit 2957.2%Q);
              pressureUsed := 10%float; method := interpolated;
              interpolationData :=
                Some {| T1 := 200%float; T2 := 250%float;
                        h1 := lit 2827.4%Q; h2 := lit 2957.2%Q |} |}
           {| T1 := 200%float; T2 := 250%float;
              h1 := lit 2827.4%Q; h2 := lit 2957.2%Q |});
    reflexivity.
Defined.

(** X10. On doubles, at every bracket of the table, [linearInterpolate]
    passes through both end points: at [T1] it gives [h1] and at [T2] it
    gives [h2], bit for bit, so that the interpolated line meets the
    values of the exact matches at the samples. *)
Theorem linearInterpolate_end_points (c : float) (data : curve float)
    (i : nat) (t1 t2 e1 e2 : float) :
  In (c, data) (steamTableData (num := float)) ->
  nth_error (temperatures data) i = Some t1 ->
  nth_error (temperatures data) (i + 1) = Some t2 ->
  nth_error (enthalpies data) i = Some e1 ->
  nth_error (enthalpies data) (i + 1) = Some e2 ->
  linearInterpolate t1 t1 t2 e1 e2 = e1
  /\ linearInterpolate t2 t1 t2 e1 e2 = e2.
Proof.
  intros Hin H1 H2 H3 H4.
  repeat (destruct Hin as [[= <- <-] | Hin];
          [do 9 (destruct i as [|i];
                 [vm_compute in H1, H2, H3, H4; try discriminate;
                  injection H1 as <-; injection H2 as <-;
                  injection H3 as <-; injection H4 as <-;
                  split; vm_compute; reflexivity|]);
           destruct i; discriminate|]).
  contradiction.
Qed.

Lemma linearInterpolate_end_points_witness :
  linearInterpolate 303%float 303%float 350%float
    (lit 2724.7%Q) (lit 2957.2%Q) = lit 2724.7%Q
  /\ linearInterpolate 350%float 303%float 350%float
       (lit 2724.7%Q) (lit 2957.2%Q) = lit 2957.2%Q.
Proof.
  apply (linearInterpolate_end_points 90%float
           {| temperatures := map lit [303; 350; 400; 450; 500; 550; 600]%Q;
              enthalpies :=
                map lit [2724.7; 2957.2; 3138.3; 3279.6; 3410.3;
                         3486.0; 3612.8]%Q |} 0);
    [vm_compute; tauto | reflexivity..].
Defined.

Section Exact.

Local Open Scope Q_scope.

(** The bracket a returned estimate was made from, in exact arithmetic:
    [ti <= T], and [T < ti1] when there is a next sample. *)
Lemma exact_bracket (c : Q) (data : curve Q) (T : Q) (est : estimate Q) :
  estimateOnCurve c data T = Returns est ->
  exists ti hi,
    nth_error (temperatures data) (bracketIndex (temperatures data) T)
    = Some ti
    /\ nth_error (enthalpies data) (bracketIndex (temperatures data) T)
       = Some hi
    /\ ti <= T
    /\ (forall ti1,
          nth_error (temperatures data)
            (bracketIndex (temperatures data) T + 1) = Some ti1 -> T < ti1)
    /\ ((ti == T
         /\ est = {| enthalpy := hi; pressureUsed := c; method := exact;
                     interpolationData := None |})
        \/ (ti < T
            /\ exists ti1 hi1,
                nth_error (temperatures data)
                  (bracketIndex (temperatures data) T + 1) = Some ti1
                /\ nth_error (enthalpies data)
                     (bracketIndex (temperatures data) T + 1) = Some hi1
                /\ est = {| enthalpy := linearInterpolate T ti ti1 hi hi1;
                            pressureUsed := c; method := interpolated;
                            interpolationData :=
                              Some {| T1 := ti; T2 := ti1;
                                      h1 := hi; h2 := hi1 |} |})).
Proof.
  intros Hret.
  destruct (estimateOnCurve_returns c data T est Hret)
    as (tmin & tmax & ti & hi & Hmin & Hmax & Hlo & Hhi & Hti & Hhi' & Hcase).
  destruct (bracketIndex_spec (temperatures data) T) as (Hr & Hstep & Hexit).
  set (i := bracketIndex (temperatures data) T) in *.
  apply Qlt_bool_false in Hlo, Hhi.
  assert (Hle : ti <= T).
  { destruct (Nat.eq_dec i 0) as [E | E].
    - rewrite E in Hti. assert (ti = tmin) by congruence. now subst.
    - destruct (Hstep i) as (t & Ht & Hle); [lia|].
      apply exact_leb in Hle. assert (t = ti) by congruence. now subst. }
  assert (Hnext : forall ti1, nth_error (temperatures data) (i + 1) = Some ti1 ->
                              T < ti1).
  { intros ti1 Hti1.
    assert (Hi : (i < length (temperatures data) - 1)%nat).
    { assert (i + 1 < length (temperatures data))%nat
        by (apply nth_error_Some; congruence). lia. }
    destruct (Hexit Hi) as (t & Ht & Hgt).
    apply Qle_bool_false in Hgt. assert (t = ti1) by congruence. now subst. }
  exists ti, hi. repeat split; auto.
  destruct Hcase as [[Heq ->] | [Hne Hrest]].
  - left. split; [now apply exact_eqb | reflexivity].
  - right. split; [|exact Hrest].
    assert (~ ti == T) by (intros E; apply exact_eqb in E; congruence).
    lra.
Qed.

Lemma fraction_in_unit (T ti ti1 : Q) :
  ti <= T -> T <= ti1 -> ti < ti1 ->
  0 <= (T - ti) / (ti1 - ti) <= 1.
Proof.
  intros H1 H2 H3. split.
  - apply Qle_shift_div_l; lra.
  - apply Qle_shift_div_r; lra.
Qed.

Lemma linearInterpolate_between (T ti ti1 hi hi1 : Q) :
  ti <= T -> T <= ti1 -> ti < ti1 ->
  (hi <= hi1 ->
   hi <= linearInterpolate T ti ti1 hi hi1
   /\ linearInterpolate T ti ti1 hi hi1 <= hi1)
  /\ (hi1 <= hi ->
      hi1 <= linearInterpolate T ti ti1 hi hi1
      /\ linearInterpolate T ti ti1 hi hi1 <= hi).
Proof.
  intros H1 H2 H3. unfold linearInterpolate.
  destruct (eqb ti ti1) eqn:E; [apply exact_eqb in E; lra|].
  cbn [add sub mul div Exact.number].
  destruct (fraction_in_unit T ti ti1 H1 H2 H3) as [Ht0 Ht1].
  set (t := (T - ti) / (ti1 - ti)) in *.
  split; intros Hh; split; nra.
Qed.

Lemma increasing_le (l : list Q) (i j : nat) (a b : Q) :
  increasing l = true -> (i <= j)%nat ->
  nth_error l i = Some a -> nth_error l j = Some b -> a <= b.
Proof.
  intros Hinc Hij Hi Hj. destruct (Nat.eq_dec i j) as [E | E].
  - subst j. assert (a = b) by congruence. subst. lra.
  - apply Qlt_le_weak, exact_ltb.
    apply (increasing_lt l Hinc i j); auto. lia.
Qed.

(** On a curve whose temperatures and enthalpies both increase, the
    estimate does not decrease with the temperature. *)
Lemma monotone_on_curve (c : Q) (data : curve Q) (T T' : Q)
    (est est' : estimate Q) :
  increasing (temperatures data) = true ->
  increasing (enthalpies data) = true ->
  T <= T' ->
  estimateOnCurve c data T = Returns est ->
  estimateOnCurve c data T' = Returns est' ->
  enthalpy est <= enthalpy est'.
Proof.
  intros Hinc Hinc' HTT Hret Hret'.
  destruct (exact_bracket c data T est Hret)
    as (ti & hi & Hti & Hhi & Hle & Hnext & Hcase).
  destruct (exact_bracket c data T' est' Hret')
    as (tj & hj & Htj & Hhj & Hle' & Hnext' & Hcase').
  set (i := bracketIndex (temperatures data) T) in *.
  set (j := bracketIndex (temperatures data) T') in *.
  assert (Hij : (i <= j)%nat).
  { destruct (Nat.le_gt_cases i j) as [Hij | Hji]; [exact Hij|]. exfalso.
    assert (Hlen : (j + 1 < length (temperatures data))%nat).
    { assert (i < length (temperatures data))%nat
        by (apply nth_error_Some; congruence). lia. }
    destruct (nth_error (temperatures data) (j + 1)) as [tj1|] eqn:Htj1;
      [|apply nth_error_None in Htj1; lia].
    pose proof (Hnext' tj1 eq_refl) as Hlt.
    pose proof (increasing_le _ (j + 1) i tj1 ti Hinc ltac:(lia) Htj1 Hti).
    lra. }
  (* the estimate at [T'] is at least [hj] *)
  assert (Hlow' : hj <= enthalpy est').
  { destruct Hcase' as [[_ ->] | [Hlt' (tj1 & hj1 & Htj1 & Hhj1 & ->)]];
      cbn [enthalpy]; [lra|].
    pose proof (Hnext' tj1 Htj1).
    pose proof (increasing_le _ j (j + 1) hj hj1 Hinc' ltac:(lia) Hhj Hhj1).
    destruct (linearInterpolate_between T' tj tj1 hj hj1) as [Hup _];
      first [lra | now apply Hup]. }
  destruct Hcase as [[Heq ->] | [Hlt (ti1 & hi1 & Hti1 & Hhi1 & ->)]];
    cbn [enthalpy].
  - pose proof (increasing_le _ i j hi hj Hinc' Hij Hhi Hhj). lra.
  - pose proof (Hnext ti1 Hti1) as Hlt1.
    pose proof (increasing_le _ i (i + 1) hi hi1 Hinc' ltac:(lia) Hhi Hhi1)
      as Hh.
    destruct (Nat.eq_dec i j) as [E | E].
    + (* the same bracket *)
      rewrite <- E in *.
      assert (tj = ti) by congruence. assert (hj = hi) by congruence. subst.
      destruct Hcase' as [[Heq' ->] | [Hlt' (tj1 & hj1 & Htj1 & Hhj1 & ->)]];
        cbn [enthalpy]; [lra|].
      assert (tj1 = ti1) by congruence. assert (hj1 = hi1) by congruence.
      subst. pose proof (Hnext' ti1 Htj1).
      unfold linearInterpolate.
      destruct (eqb ti ti1) eqn:E'; [lra|].
      cbn [add sub mul div Exact.number].
      assert (Hfrac : (T - ti) / (ti1 - ti) <= (T' - ti) / (ti1 - ti)).
      { unfold Qdiv. apply Qmult_le_compat_r; [lra|].
        apply Qlt_le_weak, Qinv_lt_0_compat. lra. }
      nra.
    + (* a later bracket *)
      pose proof (increasing_le _ (i + 1) j hi1 hj Hinc' ltac:(lia) Hhi1 Hhj).
      destruct (linearInterpolate_between T ti ti1 hi hi1) as [Hup _];
        first [lra | destruct (Hup Hh); lra].
Qed.

Lemma exact_steam_enthalpies_increase (c : Q) (data : curve Q) :
  In (c, data) steamTableData -> increasing (enthalpies data) = true.
Proof.
  intros Hin.
  repeat (destruct Hin as [[= <- <-] | Hin]; [vm_compute; reflexivity|]).
  contradiction.
Qed.

(** X11. In exact arithmetic the estimate is monotone in the
    temperature: at one pressure, a temperature at least as high gets an
    enthalpy at least as high. *)
Theorem estimate_monotone_in_temperature (p T T' : Q)
    (est est' : estimate Q) :
  T <= T' ->
  calculateEnthalpy T p = Returns est ->
  calculateEnthalpy T' p = Returns est' ->
  enthalpy est <= enthalpy est'.
Proof.
  unfold calculateEnthalpy, calculateEnthalpyOn.
  destruct (findClosestPressure steamTableData p) as [c|] eqn:Hc;
    [|discriminate].
  destruct (lookup steamTableData c) as [data|] eqn:Hl; [|discriminate].
  pose proof (exact_steam_lookup p c data Hc Hl) as Hin.
  destruct (exact_steam_curves_ok c data Hin) as (_ & Hinc).
  intros HTT. apply monotone_on_curve; try assumption.
  now apply (exact_steam_enthalpies_increase c).
Qed.

Lemma estimate_monotone_in_temperature_witness :
  144615000 # 50000 <= 2957.2.
Proof.
  apply (estimate_monotone_in_temperature 10 225 250
           {| enthalpy := 144615000 # 50000; pressureUsed := 10;
              method := interpolated;
              interpolationData :=
                Some {| T1 := 200; T2 := 250;
                        h1 := 2827.4; h2 := 2957.2 |} |}
           {| enthalpy := 2957.2; pressureUsed := 10; method := exact;
              interpolationData := None |});
    [discriminate | reflexivity | reflexivity].
Defined.

Lemma exact_distance (p l : Q) :
  (p < l /\ distance p l == l - p) \/ (l <= p /\ distance p l == p - l).
Proof.
  unfold distance. cbn [abs sub Exact.number].
  destruct (Qlt_le_dec p l) as [Hlt | Hle].
  - left. split; [exact Hlt|]. rewrite Qabs_neg; lra.
  - right. split; [exact Hle|]. rewrite Qabs_pos; lra.
Qed.

Ltac case_le p v :=
  let E := fresh "E" in
  destruct (Qle_bool p v) eqn:E;
  [apply Qle_bool_iff in E | apply Qle_bool_false in E].

(** X12. Where the selection changes level.  In exact arithmetic, for
    every pressure up to 2^53: up to 15 the level is 10, up to 25 it is
    20, up to 40 it is 30, up to 70 it is 50 and above 70 it is 90; the
    half-way pressures 15, 25, 40 and 70 go to the lower level.  On
    doubles the same levels come out at every whole pressure from 0 to
    200. *)
Theorem selection_thresholds :
  (forall p : Q,
      p <= 9007199254740992 ->
      findClosestPressure steamTableData p
      = Some (if Qle_bool p 15 then 10
              else if Qle_bool p 25 then 20
              else if Qle_bool p 40 then 30
              else if Qle_bool p 70 then 50
              else 90))
  /\ (forall n : nat,
        (n <= 200)%nat ->
        findClosestPressure (num := float) steamTableData (of_nat n)
        = Some (of_nat (if n <=? 15 then 10
                        else if n <=? 25 then 20
                        else if n <=? 40 then 30
                        else if n <=? 70 then 50
                        else 90)%nat)).
Proof.
  split.
  - intros p _.
    unfold findClosestPressure.
    destruct (closestOf_total (map fst (steamTableData (num := Q))) p)
      as (c & Hc); [discriminate|].
    rewrite Hc. f_equal.
    destruct (closestOf_firstMinimum (map fst (steamTableData (num := Q))) p c)
      as (k & Hk & Hmin & Hfirst); [|exact Hc|].
    { apply Forall_forall. intros l _. apply exact_eqb. reflexivity. }
    cbn [map fst steamTableData lit Exact.number] in Hk, Hmin, Hfirst.
    pose proof (Hmin 10 ltac:(cbn; tauto)) as M10.
    pose proof (Hmin 20 ltac:(cbn; tauto)) as M20.
    pose proof (Hmin 30 ltac:(cbn; tauto)) as M30.
    pose proof (Hmin 50 ltac:(cbn; tauto)) as M50.
    pose proof (Hmin 90 ltac:(cbn; tauto)) as M90.
    apply exact_leb in M10, M20, M30, M50, M90.
    assert (F0 : (0 < k)%nat -> distance p c < distance p 10)
      by (intros Hlt; apply exact_ltb, (Hfirst 0%nat); [exact Hlt|reflexivity]).
    assert (F1 : (1 < k)%nat -> distance p c < distance p 20)
      by (intros Hlt; apply exact_ltb, (Hfirst 1%nat); [exact Hlt|reflexivity]).
    assert (F2 : (2 < k)%nat -> distance p c < distance p 30)
      by (intros Hlt; apply exact_ltb, (Hfirst 2%nat); [exact Hlt|reflexivity]).
    assert (F3 : (3 < k)%nat -> distance p c < distance p 50)
      by (intros Hlt; apply exact_ltb, (Hfirst 3%nat); [exact Hlt|reflexivity]).
    clear Hmin Hfirst Hc.
    destruct (exact_distance p 10) as [[? D10] | [? D10]];
      destruct (exact_distance p 20) as [[? D20] | [? D20]]; try lra;
      destruct (exact_distance p 30) as [[? D30] | [? D30]]; try lra;
      destruct (exact_distance p 50) as [[? D50] | [? D50]]; try lra;
      destruct (exact_distance p 90) as [[? D90] | [? D90]]; try lra;
      (do 5 (destruct k as [|k];
             [injection Hk as <-;
              try specialize (F0 ltac:(lia)); try specialize (F1 ltac:(lia));
              try specialize (F2 ltac:(lia)); try specialize (F3 ltac:(lia));
              case_le p 15; case_le p 25; case_le p 40; case_le p 70;
              first [reflexivity | exfalso; lra]|]));
      destruct k; discriminate.
  - intros n Hn.
    assert (Hall :
      forallb
        (fun n =>
           match findClosestPressure (num := float) steamTableData
                   (of_nat n) with
           | Some c =>
               PrimFloat.Leibniz.eqb c
                 (of_nat (if n <=? 15 then 10
                          else if n <=? 25 then 20
                          else if n <=? 40 then 30
                          else if n <=? 70 then 50
                          else 90)%nat)
           | None => false
           end) (seq 0 201) = true) by (vm_compute; reflexivity).
    rewrite forallb_forall in Hall.
    specialize (Hall n ltac:(apply in_seq; lia)).
    destruct (findClosestPressure steamTableData (of_nat n)) as [c|];
      [|discriminate].
    apply Leibniz.eqb_spec in Hall. now rewrite Hall.
Qed.

Lemma selection_thresholds_witness :
  findClosestPressure steamTableData 25 = Some 20.
Proof.
  apply (proj1 selection_thresholds 25). discriminate.
Defined.

(** X13. In exact arithmetic the method of an estimate is [exact]
    precisely when the temperature is one of the samples of the selected
    curve; it then carries no bracket, and every other temperature in
    range is interpolated. *)
Theorem exact_method_at_samples_only (T p c : Q) (data : curve Q)
    (est : estimate Q) :
  findClosestPressure steamTableData p = Some c ->
  lookup steamTableData c = Some data ->
  calculateEnthalpy T p = Returns est ->
  (method est = exact
   <-> exists j tj, nth_error (temperatures data) j = Some tj /\ tj == T)
  /\ (method est = exact <-> interpolationData est = None).
Proof.
  intros Hc Hl. unfold calculateEnthalpy, calculateEnthalpyOn.
  rewrite Hc, Hl. intros Hret.
  destruct (exact_steam_curves_ok c data (exact_steam_lookup _ _ _ Hc Hl))
    as (_ & Hinc).
  destruct (exact_bracket c data T est Hret)
    as (ti & hi & Hti & _ & Hle & Hnext
        & [[Heq ->] | [Hlt (ti1 & hi1 & Hti1 & _ & ->)]]);
    cbn [method interpolationData].
  - split; split; try reflexivity. intros _. eauto.
  - pose proof (Hnext ti1 Hti1) as Hlt1.
    split; split; try discriminate.
    intros (j & tj & Htj & Hj). exfalso.
    set (i := bracketIndex (temperatures data) T) in *.
    destruct (Nat.le_gt_cases j i) as [Hji | Hij].
    + pose proof (increasing_le _ j i tj ti Hinc Hji Htj Hti). lra.
    + pose proof (increasing_le _ (i + 1) j ti1 tj Hinc ltac:(lia) Hti1 Htj).
      lra.
Qed.

Lemma exact_method_at_samples_only_witness :
  (exact = exact
   <-> exists j tj,
         nth_error [200; 250; 300; 350; 400; 450; 500; 550; 600] j = Some tj
         /\ tj == 250)
  /\ (exact = exact <-> @None (bracket Q) = None).
Proof.
  apply (exact_method_at_samples_only 250 10 10
           {| temperatures := [200; 250; 300; 350; 400; 450; 500; 550; 600];
              enthalpies := [2827.4; 2957.2; 3051.2; 3157.7; 3264.5;
                             3373.7; 3486.8; 3603.4; 3723.4] |}
           {| enthalpy := 2957.2; pressureUsed := 10; method := exact;
              interpolationData := None |});
    reflexivity.
Defined.

End Exact.

End ExactFacts.

(** * The air page over a session *)

Module AirFacts.

Import Spec Session HistoryTheory.

Section AnyNumber.

Context {num : Type} `{JSNumber num} {label : Type}.

Lemma airStep_window (e : airEvent num label) (h : list (num * num * label))
    (s : Air.page num label) :
  windowOn h s ->
  windowOn (airSince [e] h) (airStep s e).
Proof.
  intros (He & Ht & Hp & Hl). destruct e as [T p ts|]; cbn [airSince airStep].
  - unfold Air.submit.
    destruct (Air.validateInput T && Air.validateInput p).
    + unfold windowOn. rewrite !map_app. cbn [map fst snd].
      assert (Hmax : 1 <= Air.maxDataPoints)
        by (unfold Air.maxDataPoints; lia).
      cbn [Air.showNotification Air.updateChart Air.updateStats
           Air.enthalpyData Air.temperatureDataPoints
           Air.pressureDataPoints Air.timeLabels].
      rewrite He, Ht, Hp, Hl, !(lastN_push _ _ _ Hmax).
      rewrite !length_app, !lastN_length, !length_map.
      repeat split.
    + repeat split; assumption.
  - repeat split.
Qed.

Lemma airSince_app (events events' : list (airEvent num label))
    (h : list (num * num * label)) :
  airSince (events ++ events') h = airSince events' (airSince events h).
Proof.
  revert h. induction events as [|[T p ts|] events IH]; intros h;
    cbn [app airSince]; auto.
Qed.

Lemma airRun_window (events : list (airEvent num label)) :
  windowOn (airSince events []) (airRun events Air.initial).
Proof.
  induction events as [|e events IH] using rev_ind.
  - repeat split.
  - unfold airRun in *. rewrite fold_left_app, airSince_app.
    cbn [fold_left]. now apply airStep_window.
Qed.

(** X14. After any sequence of submissions and resets on the air page,
    the four arrays hold the most recent [maxDataPoints] of the valid
    submissions since the last reset, in their order: the enthalpy of
    each, its temperature, its pressure and its time stamp, index by
    index.  They have one length, at most [maxDataPoints]. *)
Theorem air_arrays_after_session (events : list (airEvent num label)) :
  let s := airRun events Air.initial in
  let h := airSince events [] in
  Air.enthalpyData s
  = lastN Air.maxDataPoints
      (map (fun q => Air.calculateEnthalpy (fst (fst q))) h)
  /\ Air.temperatureDataPoints s
     = lastN Air.maxDataPoints (map (fun q => fst (fst q)) h)
  /\ Air.pressureDataPoints s
     = lastN Air.maxDataPoints (map (fun q => snd (fst q)) h)
  /\ Air.timeLabels s = lastN Air.maxDataPoints (map snd h)
  /\ length (Air.enthalpyData s) <= Air.maxDataPoints
  /\ length (Air.temperatureDataPoints s) = length (Air.enthalpyData s)
  /\ length (Air.pressureDataPoints s) = length (Air.enthalpyData s)
  /\ length (Air.timeLabels s) = length (Air.enthalpyData s).
Proof.
  intros s h. destruct (airRun_window events) as (He & Ht & Hp & Hl).
  fold s h in He, Ht, Hp, Hl.
  repeat split; try assumption;
    rewrite ?He, ?Ht, ?Hp, ?Hl, !lastN_length, !length_map; lia.
Qed.

Lemma airInSync_flags (s : Air.page num label) (te pe : bool)
    (n : option (Air.message num * Air.kind)) :
  airInSync s ->
  airInSync (Air.Build_page (Air.enthalpyData s) (Air.temperatureDataPoints s)
               (Air.pressureDataPoints s) (Air.timeLabels s) (Air.chart s)
               (Air.canvasShown s) te pe (Air.currentEnthalpy s)
               (Air.avgEnthalpy s) (Air.dataPoints s) n).
Proof.
  destruct s as [e t p l ch cv te0 pe0 cur avg dp n0].
  unfold airInSync. cbn. destruct e as [|x e]; [tauto|].
  intros (Hch & Hcv & Hst). repeat split; try assumption.
  pose proof (f_equal Air.currentEnthalpy Hst) as Hcur.
  pose proof (f_equal Air.avgEnthalpy Hst) as Havg.
  pose proof (f_equal Air.dataPoints Hst) as Hdp.
  unfold Air.updateStats in *. cbn in *. now rewrite Hcur, Havg, Hdp.
Qed.

Lemma updateChart_inSync (T p : num) (ts : label) (s : Air.page num label)
    (m : Air.message num) (k : Air.kind) :
  airInSync (Air.showNotification m k (Air.updateChart T p ts s)).
Proof.
  unfold Air.updateChart. cbv zeta.
  set (e1 := Air.enthalpyData s ++ [Air.calculateEnthalpy T]).
  set (trim := (Air.maxDataPoints <? length e1)%nat).
  set (e2 := if trim then Air.shift e1 else e1).
  assert (He2 : e2 <> []).
  { unfold e2. destruct trim eqn:E.
    - apply Nat.ltb_lt in E. unfold Air.maxDataPoints, Air.shift in *.
      destruct e1 as [|x [|y r]]; cbn in *; try lia. discriminate.
    - unfold e1. destruct (Air.enthalpyData s); discriminate. }
  clearbody e2.
  generalize (if trim then Air.shift (Air.timeLabels s ++ [ts])
              else Air.timeLabels s ++ [ts]).
  generalize (if trim then Air.shift (Air.pressureDataPoints s ++ [p])
              else Air.pressureDataPoints s ++ [p]).
  generalize (if trim then Air.shift (Air.temperatureDataPoints s ++ [T])
              else Air.temperatureDataPoints s ++ [T]).
  intros t2 p2 l2. destruct e2 as [|x e2]; [congruence|].
  unfold airInSync. cbn. repeat split.
Qed.

Lemma airStep_inSync (e : airEvent num label) (s : Air.page num label) :
  airInSync s -> airInSync (airStep s e).
Proof.
  intros Hs. destruct e as [T p ts|]; cbn [airStep].
  - unfold Air.submit.
    destruct (Air.validateInput T && Air.validateInput p).
    + apply updateChart_inSync.
    + unfold Air.showNotification. cbn. now apply airInSync_flags.
  - unfold airInSync. cbn. repeat split.
Qed.

(** X15. At every moment of a session the air page shows its arrays.
    With no entry there is no chart, the canvas is hidden and the three
    texts are those of a reset; with entries the chart holds the time
    stamps and the enthalpies of the arrays, the canvas is shown, the
    texts are those [updateStats] writes, and the current enthalpy is
    made from the last entry: [updateStats] never finds [latest]
    [undefined]. *)
Theorem air_page_shows_arrays (events : list (airEvent num label)) :
  let s := airRun events Air.initial in
  airInSync s
  /\ Air.dataPoints s = Air.Count (length (Air.enthalpyData s))
  /\ Air.currentEnthalpy s <> Air.NaNText.
Proof.
  intros s.
  assert (Hs : airInSync s).
  { unfold s, airRun. induction events as [|e events IH] using rev_ind.
    - unfold airInSync. cbn. repeat split.
    - rewrite fold_left_app. cbn [fold_left]. now apply airStep_inSync. }
  split; [exact Hs|]. clearbody s. unfold airInSync in Hs.
  destruct s as [e t p l ch cv te pe cur avg dp n]. cbn in *.
  destruct e as [|x e].
  - destruct Hs as (_ & _ & -> & _ & ->). split; [reflexivity|discriminate].
  - destruct Hs as (_ & _ & Hst).
    pose proof (f_equal Air.currentEnthalpy Hst) as Hcur.
    pose proof (f_equal Air.dataPoints Hst) as Hdp.
    unfold Air.updateStats in Hcur, Hdp. cbn in Hcur, Hdp.
    split; [now rewrite <- Hdp|]. rewrite <- Hcur.
    rewrite Nat.sub_0_r.
    destruct (nth_error (x :: e) (length e)) eqn:E; [discriminate|].
    apply nth_error_None in E. cbn in E. lia.
Qed.

End AnyNumber.

(** X16. The sign of the air enthalpy.  At every finite temperature,
    in exact arithmetic: it is 0 at 0, positive above 0 up to 10000, and
    negative from 10012 on, temperatures the validation lets through.
    On doubles the validation also lets [Infinity] through, where the
    enthalpy is NaN, and a submission of it records NaN. *)
Theorem air_enthalpy_sign :
  (forall T : Q,
      (T == 0 -> Air.calculateEnthalpy T == 0)%Q
      /\ (0 < T -> T <= 10000 -> 0 < Air.calculateEnthalpy T)%Q
      /\ (10012 <= T ->
          Air.calculateEnthalpy T < 0 /\ Air.validateInput T = true)%Q)
  /\ Air.validateInput infinity = true
  /\ isNaN (Air.calculateEnthalpy infinity) = true
  /\ ltb (lit 0%Q) (Air.calculateEnthalpy 300%float) = true
  /\ ltb (Air.calculateEnthalpy 10012%float) (lit 0%Q) = true
  /\ forall (label : Type) (p : float) (ts : label)
       (s : Air.page float label),
       Air.validateInput p = true ->
       exists kept x,
         Air.enthalpyData (Air.submit infinity p ts s) = kept ++ [x]
         /\ isNaN x = true.
Proof.
  split; [|split; [|split; [|split; [|split]]]];
    try (vm_compute; reflexivity).
  - intros T.
    assert (Hval : (Air.calculateEnthalpy T
                    == (1003.5 + 0.1 * T - 0.00002 * T * T) * T)%Q)
      by (unfold Air.calculateEnthalpy, Air.cpDryAir; cbn; ring).
    split; [|split].
    + intros E. rewrite Hval, E. reflexivity.
    + intros Hpos Hmax. rewrite Hval.
      assert (0 < 1003.5 + 0.1 * T - 0.00002 * T * T)%Q by nra.
      nra.
    + intros Hmin. split.
      * rewrite Hval.
        assert (1003.5 + 0.1 * T - 0.00002 * T * T < 0)%Q by nra.
        nra.
      * unfold Air.validateInput, isNaN. cbn [eqb leb lit Exact.number].
        rewrite Qeq_bool_refl. cbn [negb orb].
        apply negb_true_iff, NumberTheory.Qle_bool_false. lra.
  - intros label p ts s Hp.
    destruct (AirTheory.submit_records_enthalpy infinity p ts s)
      as (kept & Hkept); [vm_compute; reflexivity | exact Hp |].
    exists kept, (Air.calculateEnthalpy infinity).
    split; [exact Hkept | vm_compute; reflexivity].
Qed.

Lemma air_enthalpy_sign_witness :
  (0 < Air.calculateEnthalpy 300)%Q.
Proof.
  apply (proj1 (proj2 (proj1 air_enthalpy_sign 300%Q)));
    [reflexivity | discriminate].
Defined.

End AirFacts.

(** * The themes *)

Module ThemeFacts.

Import Theme.

(** X17. [toggleTheme] of the steam-table page flips [isDarkTheme] and
    the class of the body with it.  On a chart made under the theme of
    the moment it repaints ticks, grids and legend in the new theme but
    not the title of the y axis, which keeps the old text colour until
    [initializeChart] makes the next chart; a second toggle brings
    everything back. *)
Theorem toggleTheme_leaves_title (s : state) :
  chart s = Some (chartOptions (isDarkTheme s)) ->
  isDarkTheme (toggleTheme s) = negb (isDarkTheme s)
  /\ bodyDark (toggleTheme s) = negb (isDarkTheme s)
  /\ (exists c,
        chart (toggleTheme s) = Some c
        /\ xTicks c = textColor (negb (isDarkTheme s))
        /\ yTicks c = textColor (negb (isDarkTheme s))
        /\ xGrid c = gridColor (negb (isDarkTheme s))
        /\ yGrid c = gridColor (negb (isDarkTheme s))
        /\ legendLabels c = textColor (negb (isDarkTheme s))
        /\ yTitle c = textColor (isDarkTheme s)
        /\ yTitle c <> yTitle (chartOptions (negb (isDarkTheme s))))
  /\ chart (initializeChart true (toggleTheme s))
     = Some (chartOptions (negb (isDarkTheme s)))
  /\ (bodyDark s = isDarkTheme s -> toggleTheme (toggleTheme s) = s).
Proof.
  destruct s as [dark body ch]. cbn. intros ->.
  split; [reflexivity|]. split; [reflexivity|]. split.
  - eexists. split; [reflexivity|]. cbn. repeat split.
    destruct dark; discriminate.
  - split; [reflexivity|]. intros ->.
    unfold toggleTheme. cbn. rewrite negb_involutive. reflexivity.
Qed.

Lemma toggleTheme_leaves_title_witness :
  isDarkTheme (toggleTheme (initializeChart true (Build_state false false None)))
  = true
  /\ yTitle (chartOptions true) = grey_e0.
Proof.
  pose proof (toggleTheme_leaves_title
                (initializeChart true (Build_state false false None))
                eq_refl) as (Hd & _).
  split; [exact Hd | reflexivity].
Defined.

Local Open Scope string_scope.

(** X18. [toggleTheme] of the air page always leaves the attribute at
    ['dark'] or ['light']: ['light'] when it was ['dark'], and ['dark']
    in every other case (no attribute, an empty one, any other value).
    From then on it alternates; two toggles give the attribute back
    exactly when it was one of the two values. *)
Theorem airToggleTheme_cycle (attribute : option String.string) :
  (airToggleTheme attribute = Some "light" <-> attribute = Some "dark")
  /\ (airToggleTheme attribute = Some "dark" <-> attribute <> Some "dark")
  /\ airToggleTheme (airToggleTheme (airToggleTheme attribute))
     = airToggleTheme attribute
  /\ (airToggleTheme (airToggleTheme attribute) = attribute
      <-> attribute = Some "dark" \/ attribute = Some "light").
Proof.
  unfold airToggleTheme.
  destruct attribute as [t|].
  - destruct (String.eqb_spec t "") as [-> | Hne].
    + cbn. repeat split; try discriminate; try tauto;
        intros [? | ?]; discriminate.
    + destruct (String.eqb_spec t "dark") as [-> | Hd].
      * cbn. repeat split; try discriminate; try tauto; congruence.
      * cbn. destruct (String.eqb_spec t "light") as [-> | Hl].
        -- repeat split; try discriminate; try tauto; congruence.
        -- repeat split; try discriminate; try tauto; try congruence.
           intros [? | ?]; congruence.
  - cbn. repeat split; try discriminate; try tauto;
      intros [? | ?]; discriminate.
Qed.

End ThemeFacts.
